(** * byteplus.core.http_caller: the signed request caller

    A shallow embedding of [src/byteplus/core/http_caller.py] and of the
    library behaviour it relies on (UTF-8 encoding, [hashlib.sha256],
    [random.sample], [uuid.uuid1], [str.format], the [requests] transport and
    the protocol-buffer messages), followed by the properties of the request
    path: signature, headers, nonce, compression and error classification. *)

From Stdlib Require Import ZArith NArith QArith List String Ascii Lia.
From Stdlib Require Import Strings.Byte.
From Stdlib Require Import DecimalString.
From stdpp Require Import base option list gmap.

(** Python's [bytes]: a sequence of octets. *)
Abbreviation bytes := (list byte).

(** Python's [str]: a sequence of Unicode code points. *)
Abbreviation str := (list N).

(* ===================================================================== *)
(** ** SHA-256 (FIPS 180-4), on 32-bit words held in [Z] *)
(* ===================================================================== *)

Module SHA256.
Local Open Scope Z_scope.

Definition wrap (x : Z) : Z := x mod 2 ^ 32.
Definition add32 (x y : Z) : Z := wrap (x + y).
Definition not32 (x : Z) : Z := Z.lxor x (2 ^ 32 - 1).
Definition shr (n x : Z) : Z := Z.shiftr x n.
Definition rotr (n x : Z) : Z :=
  Z.lor (Z.shiftr x n) (wrap (Z.shiftl x (32 - n))).

Definition Ch (x y z : Z) : Z := Z.lxor (Z.land x y) (Z.land (not32 x) z).
Definition Maj (x y z : Z) : Z :=
  Z.lxor (Z.lxor (Z.land x y) (Z.land x z)) (Z.land y z).
Definition bsig0 (x : Z) : Z := Z.lxor (Z.lxor (rotr 2 x) (rotr 13 x)) (rotr 22 x).
Definition bsig1 (x : Z) : Z := Z.lxor (Z.lxor (rotr 6 x) (rotr 11 x)) (rotr 25 x).
Definition ssig0 (x : Z) : Z := Z.lxor (Z.lxor (rotr 7 x) (rotr 18 x)) (shr 3 x).
Definition ssig1 (x : Z) : Z := Z.lxor (Z.lxor (rotr 17 x) (rotr 19 x)) (shr 10 x).

(** The constants are defined the way the standard derives them: the first
    32 bits of the fractional parts of the square roots (initial hash
    value) and cube roots (round constants) of the first primes. *)
Definition primes64 : list Z :=
  [2; 3; 5; 7; 11; 13; 17; 19; 23; 29; 31; 37; 41; 43; 47; 53; 59; 61; 67;
   71; 73; 79; 83; 89; 97; 101; 103; 107; 109; 113; 127; 131; 137; 139;
   149; 151; 157; 163; 167; 173; 179; 181; 191; 193; 197; 199; 211; 223;
   227; 229; 233; 239; 241; 251; 257; 263; 269; 271; 277; 281; 283; 293;
   307; 311].

(** Integer cube root, built bit by bit from bit [nbits - 1] down. *)
Fixpoint icbrt_bits (nbits : nat) (n r : Z) : Z :=
  match nbits with
  | O => r
  | S b =>
      let c := r + 2 ^ Z.of_nat b in
      icbrt_bits b n (if c * c * c <=? n then c else r)
  end.
Definition icbrt (n : Z) : Z := icbrt_bits 40 n 0.

Definition frac_sqrt32 (p : Z) : Z := wrap (Z.sqrt (p * 2 ^ 64)).
Definition frac_cbrt32 (p : Z) : Z := wrap (icbrt (p * 2 ^ 96)).

Definition H0 : list Z := Eval vm_compute in map frac_sqrt32 (take 8 primes64).
Definition K : list Z := Eval vm_compute in map frac_cbrt32 primes64.

(** Big-endian conversions between octets and words. *)
Definition byte_of_Z (x : Z) : byte :=
  default "000"%byte (Byte.of_N (Z.to_N (x mod 256))).
Definition Z_of_byte (b : byte) : Z := Z.of_N (Byte.to_N b).

Definition be_word (b : bytes) : Z :=
  fold_left (fun acc x => acc * 256 + Z_of_byte x) b 0.

Fixpoint be_words (n : nat) (b : bytes) : list Z :=
  match n with
  | O => []
  | S n' => be_word (take 4 b) :: be_words n' (drop 4 b)
  end.

Definition word_bytes (x : Z) : bytes :=
  [byte_of_Z (Z.shiftr x 24); byte_of_Z (Z.shiftr x 16);
   byte_of_Z (Z.shiftr x 8); byte_of_Z x].

Definition be64 (x : Z) : bytes :=
  word_bytes (Z.shiftr x 32) ++ word_bytes (wrap x).

(** Message schedule: sixteen words of the block, extended to sixty-four. *)
Fixpoint extend (n : nat) (ws : list Z) : list Z :=
  match n with
  | O => ws
  | S n' =>
      let t := length ws in
      let g (k : nat) := nth (t - k) ws 0 in
      extend n' (ws ++ [add32 (add32 (ssig1 (g 2%nat)) (g 7%nat))
                              (add32 (ssig0 (g 15%nat)) (g 16%nat))])
  end.
Definition schedule (block : bytes) : list Z := extend 48 (be_words 16 block).

Record regs := Regs { ra : Z; rb : Z; rc : Z; rd : Z; re : Z; rf : Z; rg : Z; rh : Z }.

Definition round (s : regs) (kw : Z * Z) : regs :=
  let t1 := add32 (add32 (add32 (rh s) (bsig1 (re s))) (Ch (re s) (rf s) (rg s)))
                  (add32 (fst kw) (snd kw)) in
  let t2 := add32 (bsig0 (ra s)) (Maj (ra s) (rb s) (rc s)) in
  Regs (add32 t1 t2) (ra s) (rb s) (rc s) (add32 (rd s) t1) (re s) (rf s) (rg s).

Definition regs_of (h : list Z) : regs :=
  Regs (nth 0 h 0) (nth 1 h 0) (nth 2 h 0) (nth 3 h 0)
       (nth 4 h 0) (nth 5 h 0) (nth 6 h 0) (nth 7 h 0).
Definition list_of (s : regs) : list Z :=
  [ra s; rb s; rc s; rd s; re s; rf s; rg s; rh s].

(** The compression function: one 64-octet block into the chaining value. *)
Definition compress (h : list Z) (block : bytes) : list Z :=
  let s := fold_left round (combine K (schedule block)) (regs_of h) in
  map (fun p => add32 (fst p) (snd p)) (combine h (list_of s)).

(** Padding: a one bit, zero bits up to 56 mod 64 octets, and the length in
    bits as a 64-bit big-endian integer. *)
Definition padding (len : nat) : bytes :=
  "128"%byte
    :: repeat "000"%byte (Z.to_nat ((55 - Z.of_nat len) mod 64))
    ++ be64 (8 * Z.of_nat len).

Fixpoint chunks (n : nat) (b : bytes) : list bytes :=
  match n with
  | O => []
  | S n' => take 64 b :: chunks n' (drop 64 b)
  end.
Definition blocks (b : bytes) : list bytes := chunks (length b / 64) b.

Definition digest_bytes (h : list Z) : bytes := concat (map word_bytes h).

(** The hash of a whole message. *)
Definition hash (msg : bytes) : bytes :=
  digest_bytes (fold_left compress (blocks (msg ++ padding (length msg))) H0).

End SHA256.


(* ===================================================================== *)
(** ** Exceptions and results *)
(* ===================================================================== *)

(** Modelled from the spec: [byteplus.core.exception] is not part of the
    sources at hand. The spec gives two user-visible error kinds, each
    carrying a message: the Network Error ([NetException]) and the
    Business/Protocol Error ([BizException]). The other constructors are the
    Python built-in exceptions that the library calls of this file can raise. *)
Inductive exn : Type :=
| NetException (msg : str)
| BizException (msg : str)
| UnicodeEncodeError
| ValueError
| IndexError.

Inductive result (A : Type) : Type :=
| Ok (a : A)
| Raise (e : exn).
Arguments Ok {A} a.
Arguments Raise {A} e.

Definition is_net (e : exn) : bool :=
  match e with NetException _ => true | _ => false end.
Definition is_biz (e : exn) : bool :=
  match e with BizException _ => true | _ => false end.

(* ===================================================================== *)
(** ** The Python built-ins the module uses *)
(* ===================================================================== *)

Module Py.

(** A string literal of the source, as code points (literals are ASCII). *)
Definition lit (s : string) : str := map N_of_ascii (list_ascii_of_string s).

Definition byte_of_N (n : N) : byte :=
  default "000"%byte (Byte.of_N (n mod 256)%N).

(** [str.encode('utf-8')], one code point at a time, as CPython's encoder does
    it; a surrogate (U+D800..U+DFFF) cannot be encoded, and a code point above
    U+10FFFF does not exist. *)
Definition utf8_code_point (c : N) : option bytes :=
  if (c <? 0x80)%N then Some [byte_of_N c]
  else if (c <? 0x800)%N then
    Some [byte_of_N (N.lor 0xC0 (N.shiftr c 6));
          byte_of_N (N.lor 0x80 (N.land c 0x3F))]
  else if (c <? 0x10000)%N then
    if ((0xD800 <=? c) && (c <=? 0xDFFF))%N then None
    else
      Some [byte_of_N (N.lor 0xE0 (N.shiftr c 12));
            byte_of_N (N.lor 0x80 (N.land (N.shiftr c 6) 0x3F));
            byte_of_N (N.lor 0x80 (N.land c 0x3F))]
  else if (c <? 0x110000)%N then
    Some [byte_of_N (N.lor 0xF0 (N.shiftr c 18));
          byte_of_N (N.lor 0x80 (N.land (N.shiftr c 12) 0x3F));
          byte_of_N (N.lor 0x80 (N.land (N.shiftr c 6) 0x3F));
          byte_of_N (N.lor 0x80 (N.land c 0x3F))]
  else None.

Fixpoint utf8 (s : str) : option bytes :=
  match s with
  | [] => Some []
  | c :: s' =>
      match utf8_code_point c, utf8 s' with
      | Some b, Some bs => Some (b ++ bs)
      | _, _ => None
      end
  end.

(** The code points that have a UTF-8 encoding: the Unicode scalar values. *)
Definition is_scalar (c : N) : bool :=
  ((c <? 0x110000) && negb ((0xD800 <=? c) && (c <=? 0xDFFF)))%N.

Definition encodable (s : str) : bool := forallb is_scalar s.

(** [s.encode('utf-8')]: raises [UnicodeEncodeError] where [utf8] fails. *)
Definition encode (s : str) : result bytes :=
  match utf8 s with
  | Some b => Ok b
  | None => Raise UnicodeEncodeError
  end.

Definition is_ascii (c : N) : bool := (c <? 128)%N.

(** Lowercase hexadecimal digits. *)
Definition hex_digit (n : N) : N :=
  if (n <? 10)%N then (48 + n)%N else (87 + n)%N.

Definition hex_byte (b : byte) : str :=
  let n := Byte.to_N b in [hex_digit (N.shiftr n 4); hex_digit (N.land n 15)].

(** The rendering behind [hexdigest()] and ['%x']: two lowercase hexadecimal
    digits per octet. *)
Definition hexlify (b : bytes) : str := concat (map hex_byte b).

Definition is_lower_hex (c : N) : bool :=
  ((48 <=? c) && (c <=? 57) || (97 <=? c) && (c <=? 102))%N.

(** [int(x)] of a float [x], the float being the rational it denotes:
    truncation towards zero. *)
Definition int_of_float (x : Q) : Z := Z.quot (Qnum x) (Zpos (Qden x)).

(** [str(n)] of an integer: decimal digits, with a minus sign if negative. *)
Definition str_of_int (n : Z) : str := lit (NilZero.string_of_int (Z.to_int n)).

(** [str.lower()]. The ASCII range is as CPython has it. The lower-case
    mapping of the code points above it is the Unicode case table, which is
    data of the interpreter: it is the parameter [tbl], given the code points
    before and after (the mapping of capital sigma looks at them). *)
Definition lower_code_point (tbl : str -> N -> str -> str)
    (before : str) (c : N) (after : str) : str :=
  if ((65 <=? c) && (c <=? 90))%N then [(c + 32)%N]
  else if (c <? 128)%N then [c]
  else tbl before c after.

Fixpoint lower_from (tbl : str -> N -> str -> str) (before s : str) : str :=
  match s with
  | [] => []
  | c :: s' => lower_code_point tbl before c s' ++ lower_from tbl (before ++ [c]) s'
  end.

Definition lower (tbl : str -> N -> str -> str) (s : str) : str :=
  lower_from tbl [] s.

(** [sub in s] on strings. *)
Fixpoint startswith (s sub : str) : bool :=
  match sub, s with
  | [], _ => true
  | _ :: _, [] => false
  | a :: sub', b :: s' => (a =? b)%N && startswith s' sub'
  end.

Fixpoint contains (sub s : str) : bool :=
  startswith s sub ||
  match s with
  | [] => false
  | _ :: s' => contains sub s'
  end.

(** Values passed to [str.format] and to the logger. *)
Inductive value : Type :=
| VStr (s : str)
| VInt (n : Z)
| VBytes (b : bytes).

(** [repr(b)] of a [bytes] object, which is also its [str(b)]: [b'...'],
    within double quotes instead if the octets hold a single quote and no
    double quote, with backslash escapes for the quote, the backslash, tab,
    newline and carriage return, and [\xNN] for the other octets outside the
    printable ASCII range. *)
Definition repr_octet (quote : N) (b : byte) : str :=
  let c := Byte.to_N b in
  if ((c =? quote) || (c =? 92))%N then [92%N; c]
  else if (c =? 9)%N then [92%N; 116%N]
  else if (c =? 10)%N then [92%N; 110%N]
  else if (c =? 13)%N then [92%N; 114%N]
  else if ((c <? 32) || (127 <=? c))%N then
    [92%N; 120%N; hex_digit (N.shiftr c 4); hex_digit (N.land c 15)]
  else [c].

Definition bytes_repr (b : bytes) : str :=
  let has (q : N) := existsb (fun x => (Byte.to_N x =? q)%N) b in
  let quote := if has 39%N && negb (has 34%N) then 34%N else 39%N in
  [98%N; quote] ++ concat (map (repr_octet quote) b) ++ [quote].

(** [str(v)]. *)
Definition str_of (v : value) : str :=
  match v with
  | VStr s => s
  | VInt n => str_of_int n
  | VBytes b => bytes_repr b
  end.

(** [template.format(args...)]. Replacement fields are written with braces:
    [{}] takes the next argument, [{N}] the argument at index [N] (the two
    styles cannot be mixed), and [{{] and [}}] stand for a brace. Text outside braces is copied as it is; in
    particular the percent sign has no meaning to [str.format]. Fields with
    names, conversions or format specifications are outside this fragment
    and are reported as [ValueError], like a malformed template. *)
Inductive fmt_mode : Type :=
| FText
| FOpen
| FIndex (i : nat)
| FClose.

Definition is_digit (c : N) : bool := ((48 <=? c) && (c <=? 57))%N.
Definition digit_val (c : N) : nat := N.to_nat (c - 48).

Definition fmt_arg (args : list value) (i : nat) : result str :=
  match args !! i with
  | None => Raise IndexError
  | Some v => Ok (str_of v)
  end.

Definition prepend (s : str) (r : result str) : result str :=
  match r with
  | Ok t => Ok (s ++ t)
  | Raise e => Raise e
  end.

Fixpoint format_from (mode : fmt_mode) (next : nat) (manual : bool) (t : str)
    (args : list value) : result str :=
  match t with
  | [] => match mode with FText => Ok [] | _ => Raise ValueError end
  | c :: t' =>
      match mode with
      | FText =>
          if (c =? 123)%N then format_from FOpen next manual t' args
          else if (c =? 125)%N then format_from FClose next manual t' args
          else prepend [c] (format_from FText next manual t' args)
      | FOpen =>
          if (c =? 123)%N then
            prepend [123%N] (format_from FText next manual t' args)
          else if (c =? 125)%N then
            if manual then Raise ValueError
            else
              match fmt_arg args next with
              | Ok s => prepend s (format_from FText (S next) manual t' args)
              | Raise e => Raise e
              end
          else if is_digit c then
            format_from (FIndex (digit_val c)) next manual t' args
          else Raise ValueError
      | FIndex i =>
          if (c =? 125)%N then
            if (0 <? next)%nat then Raise ValueError
            else
              match fmt_arg args i with
              | Ok s => prepend s (format_from FText next true t' args)
              | Raise e => Raise e
              end
          else if is_digit c then
            format_from (FIndex (10 * i + digit_val c)) next manual t' args
          else Raise ValueError
      | FClose =>
          if (c =? 125)%N then
            prepend [125%N] (format_from FText next manual t' args)
          else Raise ValueError
      end
  end.

Definition no_brace (c : N) : bool := negb (c =? 123)%N && negb (c =? 125)%N.

Definition format (t : str) (args : list value) : result str :=
  format_from FText 0 false t args.

(** [sep.join(parts)]. *)
Fixpoint join (sep : str) (parts : list str) : str :=
  match parts with
  | [] => []
  | [p] => p
  | p :: ps => p ++ sep ++ join sep ps
  end.

End Py.


(* ===================================================================== *)
(** ** [hashlib.sha256]: the incremental hash object *)
(* ===================================================================== *)

Module Hashlib.

(** The object holds the chaining value over the blocks absorbed so far, the
    octets that do not yet fill a block, and the number of octets fed. *)
Record sha256_obj : Type := Sha256Obj {
  chain : list Z;
  pending : bytes;
  fed : nat
}.

(** [hashlib.sha256()]. *)
Definition sha256 : sha256_obj := Sha256Obj SHA256.H0 [] 0.

(** Absorb [n] whole blocks from the front of a buffer. *)
Fixpoint absorb (n : nat) (h : list Z) (buf : bytes) : list Z * bytes :=
  match n with
  | O => (h, buf)
  | S n' => absorb n' (SHA256.compress h (take 64 buf)) (drop 64 buf)
  end.

(** [obj.update(data)]: every complete block is compressed at once, the rest
    waits in the buffer. *)
Definition update (o : sha256_obj) (data : bytes) : sha256_obj :=
  let buf := pending o ++ data in
  let '(h, rest) := absorb (length buf / 64) (chain o) buf in
  Sha256Obj h rest (fed o + length data).

(** [obj.digest()]: pad what is pending with the total length and compress. *)
Definition digest (o : sha256_obj) : bytes :=
  let tail := pending o ++ SHA256.padding (fed o) in
  SHA256.digest_bytes (fst (absorb (length tail / 64) (chain o) tail)).

(** [obj.hexdigest()]. *)
Definition hexdigest (o : sha256_obj) : str := Py.hexlify (digest o).

End Hashlib.

(* ===================================================================== *)
(** ** [random.sample] and [uuid.uuid1] *)
(* ===================================================================== *)

Module Random.

(** [random.sample(population, k)] as CPython runs it when the population is
    no larger than the set-size threshold (21, plus [4 ** ceil(log(3k, 4))]
    when [k > 5]; 85 for [k = 8]), which is the case for the 62-symbol
    alphabet of the nonce: selection from a pool, the vacancy being refilled
    with the last item not yet selected. [randbelow i m] is the [i]-th result
    of the generator's [_randbelow], asked for a number below [m]. *)
Section Sample.
Context {A : Type}.
Variable randbelow : nat -> nat -> nat.

Fixpoint sample_loop (pool : list A) (n i k : nat) (pos : nat) : result (list A) :=
  match k with
  | O => Ok []
  | S k' =>
      let j := randbelow pos (n - i) in
      match pool !! j, pool !! (n - i - 1) with
      | Some x, Some last =>
          match sample_loop (<[j := last]> pool) n (S i) k' (S pos) with
          | Ok rest => Ok (x :: rest)
          | Raise e => Raise e
          end
      | _, _ => Raise IndexError
      end
  end.

Definition sample (population : list A) (k : nat) (pos : nat) : result (list A) :=
  let n := length population in
  if (k <=? n)%nat then sample_loop population n 0 k pos
  else Raise ValueError.

End Sample.

(** [string.ascii_letters + string.digits]. *)
Definition alphabet : str :=
  Py.lit "abcdefghijklmnopqrstuvwxyzABCDEFGHIJKLMNOPQRSTUVWXYZ0123456789".

Definition in_alphabet (c : N) : bool :=
  ((97 <=? c) && (c <=? 122) || (65 <=? c) && (c <=? 90)
   || (48 <=? c) && (c <=? 57))%N.

End Random.

Module Uuid.

(** Big-endian octets of the low [8 * n] bits of a number. *)
Fixpoint N_to_be (n : nat) (x : N) : bytes :=
  match n with
  | O => []
  | S n' => N_to_be n' (N.shiftr x 8) ++ [Py.byte_of_N x]
  end.

(** [str(u)] of a [UUID] whose 128-bit value is [x]: the 32 hexadecimal
    digits in groups of 8, 4, 4, 4 and 12. *)
Definition str_of_uuid (x : N) : str :=
  let h := Py.hexlify (N_to_be 16 x) in
  take 8 h ++ [45%N] ++ take 4 (drop 8 h) ++ [45%N] ++ take 4 (drop 12 h)
    ++ [45%N] ++ take 4 (drop 16 h) ++ [45%N] ++ drop 20 h.

End Uuid.

(* ===================================================================== *)
(** ** The collaborators of the caller *)
(* ===================================================================== *)

(** Modelled from the spec: [byteplus.core.context] is not part of the
    sources at hand; the caller reads the two attributes [tenant_id] and
    [token], both strings. *)
Record Context : Type := {
  tenant_id : str;
  token : str
}.

(** [datetime.timedelta], normalised to days, seconds and microseconds. *)
Record timedelta : Type := {
  days : Z;
  seconds : Z;
  microseconds : Z
}.

Definition total_seconds (t : timedelta) : Q :=
  Qmake ((days t * 86400 + seconds t) * 1000000 + microseconds t) 1000000.

(** Modelled from the spec: [byteplus.core.options] and
    [byteplus.core.option] are not part of the sources at hand. The spec
    gives the resolved options two optional fields, the request id and the
    timeout, both absent by default; each option of a call fills its field,
    in the order given. *)
Record _Options : Type := {
  request_id : option str;
  timeout : option timedelta
}.

Inductive Option : Type :=
| with_request_id (rid : str)
| with_timeout (t : timedelta).

Definition fill (options : _Options) (opt : Option) : _Options :=
  match opt with
  | with_request_id rid => {| request_id := Some rid; timeout := timeout options |}
  | with_timeout t => {| request_id := request_id options; timeout := Some t |}
  end.

Definition conv_to_options (opts : list Option) : _Options :=
  fold_left fill opts {| request_id := None; timeout := None |}.

(** The protocol-buffer messages: a request can be serialized, a response
    container can be filled from octets. [ParseFromString] gives the container
    as it is after the call, and the error message if parsing raised. *)
Class Serializable (Req : Type) : Type :=
  SerializeToString : Req -> bytes.

Inductive parse_outcome (Rsp : Type) : Type :=
| Parsed (m : Rsp)
| ParseFailed (m : Rsp) (err : str).
Arguments Parsed {Rsp} m.
Arguments ParseFailed {Rsp} m err.

Class Parsable (Rsp : Type) : Type :=
  ParseFromString : Rsp -> bytes -> parse_outcome Rsp.

(** [gzip.compress], and the decompression that the receiving side applies. *)
Class Gzip : Type := {
  gzip_compress : bytes -> bytes;
  gzip_decompress : bytes -> option bytes
}.

(** What [requests.post] is called with, and what comes of it: a response, or
    an exception [e] of the transport, of which the caller reads [str(e)]. *)
Record http_request : Type := {
  post_url : str;
  post_headers : gmap str str;
  post_data : bytes;
  post_timeout : option Q
}.

Record Response : Type := {
  status_code : Z;
  reason : str;
  content : option bytes
}.

Inductive post_outcome : Type :=
| Responds (rsp : Response)
| Fails (msg : str).

(** The environment of a run: the successive readings of [time.time()], the
    successive numbers of the random generator, the successive values of
    [uuid.uuid1()], the transport, and the interpreter's case table. *)
Record Env : Type := {
  time_at : nat -> Q;
  draw_at : nat -> nat;
  uuid_at : nat -> N;
  requests_post : http_request -> post_outcome;
  unicode_lower : str -> N -> str -> str
}.

Inductive log_level : Type := DEBUG | ERROR.

Record log_record : Type := {
  level : log_level;
  log_msg : str;
  log_args : list Py.value
}.

(** The state a run goes through: how far the clock, the generator and the
    UUID source have been read, the log, and the requests handed to
    [requests.post], in order ([wire]). *)
Record World : Type := {
  clock : nat;
  drawn : nat;
  uuids : nat;
  log : list log_record;
  wire : list http_request
}.

Definition initial_world : World :=
  {| clock := 0; drawn := 0; uuids := 0; log := []; wire := [] |}.

(* ===================================================================== *)
(** ** Effects: state and exceptions *)
(* ===================================================================== *)

Definition M (A : Type) : Type := World -> result A * World.

Definition ret {A : Type} (a : A) : M A := fun w => (Ok a, w).

Definition raise {A : Type} (e : exn) : M A := fun w => (Raise e, w).

Definition bind {A B : Type} (m : M A) (k : A -> M B) : M B :=
  fun w =>
    match m w with
    | (Ok a, w') => k a w'
    | (Raise e, w') => (Raise e, w')
    end.

Definition lift {A : Type} (r : result A) : M A := fun w => (r, w).

Notation "x <- m ;; k" := (bind m (fun x => k))
  (at level 100, m at next level, right associativity).
Notation "m ;;; k" := (bind m (fun _ => k))
  (at level 100, right associativity).

(** [try: body finally: cleanup]. *)
Definition finally_ {A : Type} (body : M A) (cleanup : M unit) : M A :=
  fun w =>
    match body w with
    | (r, w1) =>
        match cleanup w1 with
        | (Ok _, w2) => (r, w2)
        | (Raise e, w2) => (Raise e, w2)
        end
    end.

Definition bind_result {A B : Type} (r : result A) (k : A -> result B) : result B :=
  match r with
  | Ok a => k a
  | Raise e => Raise e
  end.

Definition log_call (lv : log_level) (msg : string) (args : list Py.value) : M unit :=
  fun w =>
    (Ok tt,
     {| clock := clock w; drawn := drawn w; uuids := uuids w;
        log := log w ++ [{| level := lv; log_msg := Py.lit msg; log_args := args |}];
        wire := wire w |}).

Section Caller.
Context {Req Rsp : Type} `{!Serializable Req} `{!Parsable Rsp} `{!Gzip}.
Variable env : Env.

(** [time.time()]. *)
Definition time_time : M Q :=
  fun w =>
    (Ok (time_at env (clock w)),
     {| clock := S (clock w); drawn := drawn w; uuids := uuids w;
        log := log w; wire := wire w |}).

(** [uuid.uuid1()]. *)
Definition uuid1 : M N :=
  fun w =>
    (Ok (uuid_at env (uuids w)),
     {| clock := clock w; drawn := drawn w; uuids := S (uuids w);
        log := log w; wire := wire w |}).

Definition randbelow (pos m : nat) : nat := draw_at env pos mod m.

(** [random.sample(population, k)], one draw per selected item. *)
Definition random_sample (population : str) (k : nat) : M str :=
  fun w =>
    (Random.sample randbelow population k (drawn w),
     {| clock := clock w; drawn := drawn w + k; uuids := uuids w;
        log := log w; wire := wire w |}).

(** [requests.post(url=..., headers=..., data=..., timeout=...)]. *)
Definition post (r : http_request) : M post_outcome :=
  fun w =>
    (Ok (requests_post env r),
     {| clock := clock w; drawn := drawn w; uuids := uuids w;
        log := log w; wire := wire w ++ [r] |}).

Record HttpCaller : Type := {
  _context : Context
}.

Definition _SUCCESS_HTTP_CODE : Z := 200.

Definition _cal_signature (self : HttpCaller) (req_bytes : bytes) (ts nonce : str)
    : result str :=
  let sha256 := Hashlib.sha256 in
  bind_result (Py.encode (token (_context self))) (fun b1 =>
  let sha256 := Hashlib.update sha256 b1 in
  let sha256 := Hashlib.update sha256 req_bytes in
  bind_result (Py.encode (tenant_id (_context self))) (fun b3 =>
  let sha256 := Hashlib.update sha256 b3 in
  bind_result (Py.encode ts) (fun b4 =>
  let sha256 := Hashlib.update sha256 b4 in
  bind_result (Py.encode nonce) (fun b5 =>
  let sha256 := Hashlib.update sha256 b5 in
  Ok (Hashlib.hexdigest sha256))))).

Definition _with_auth_headers (self : HttpCaller) (headers : gmap str str)
    (req_bytes : bytes) : M (gmap str str) :=
  now <- time_time ;;
  let ts := Py.str_of_int (Py.int_of_float now) in
  chars <- random_sample Random.alphabet 8 ;;
  let nonce := Py.join [] (map (fun c => [c]) chars) in
  signature <- lift (_cal_signature self req_bytes ts nonce) ;;
  let headers := <[Py.lit "Tenant-Id" := tenant_id (_context self)]> headers in
  let headers := <[Py.lit "Tenant-Ts" := ts]> headers in
  let headers := <[Py.lit "Tenant-Nonce" := nonce]> headers in
  let headers := <[Py.lit "Tenant-Signature" := signature]> headers in
  ret headers.

Definition _build_headers (self : HttpCaller) (options : _Options)
    (req_bytes : bytes) : M (gmap str str) :=
  let headers : gmap str str :=
    <[Py.lit "Accept" := Py.lit "application/x-protobuf"]>
      (<[Py.lit "Content-Type" := Py.lit "application/x-protobuf"]>
         (<[Py.lit "Accept-Encoding" := Py.lit "gzip"]>
            (<[Py.lit "Content-Encoding" := Py.lit "gzip"]> ∅))) in
  headers <-
    match request_id options with
    | Some rid =>
        if (0 <? length rid)%nat then ret (<[Py.lit "Request-Id" := rid]> headers)
        else u <- uuid1 ;; ret (<[Py.lit "Request-Id" := Uuid.str_of_uuid u]> headers)
    | None => u <- uuid1 ;; ret (<[Py.lit "Request-Id" := Uuid.str_of_uuid u]> headers)
    end ;;
  _with_auth_headers self headers req_bytes.

Definition _log_rsp (url : str) (rsp : Response) : M unit :=
  match content rsp with
  | Some rsp_bytes =>
      if (0 <? length rsp_bytes)%nat then
        log_call ERROR "[ByteplusSDK] http status not 200, url:%s code:%d msg:%s body:%s"
          [Py.VStr url; Py.VInt (status_code rsp); Py.VStr (reason rsp);
           Py.VStr (Py.str_of (Py.VBytes rsp_bytes))]
      else
        log_call ERROR "[ByteplusSDK] http status not 200, url:%s code:%d msg:%s"
          [Py.VStr url; Py.VInt (status_code rsp); Py.VStr (reason rsp)]
  | None =>
      log_call ERROR "[ByteplusSDK] http status not 200, url:%s code:%d msg:%s"
        [Py.VStr url; Py.VInt (status_code rsp); Py.VStr (reason rsp)]
  end.

Definition _do_http_request (url : str) (headers : gmap str str)
    (req_bytes : bytes) (timeout : option timedelta) : M (option bytes) :=
  start <- time_time ;;
  rsp <- finally_
    (outcome <-
       match timeout with
       | Some t =>
           let timeout_secs := total_seconds t in
           post {| post_url := url; post_headers := headers;
                   post_data := req_bytes; post_timeout := Some timeout_secs |}
       | None =>
           post {| post_url := url; post_headers := headers;
                   post_data := req_bytes; post_timeout := None |}
       end ;;
     match outcome with
     | Responds rsp => ret rsp
     | Fails e =>
         if Py.contains (Py.lit "timeout") (Py.lower (unicode_lower env) e) then
           log_call ERROR "[ByteplusSDK] do http request timeout, msg:%s" [Py.VStr e] ;;;
           raise (NetException e)
         else
           log_call ERROR "[ByteplusSDK] do http request occur io exception, msg:%s"
             [Py.VStr e] ;;;
           raise (BizException e)
     end)
    (stop <- time_time ;;
     let cost := Py.int_of_float ((stop - start) * 1000)%Q in
     log_call DEBUG "[ByteplusSDK] http path:%s, cost:%dms" [Py.VStr url; Py.VInt cost]) ;;
  if negb (status_code rsp =? _SUCCESS_HTTP_CODE)%Z then
    _log_rsp url rsp ;;;
    msg <- lift (Py.format (Py.lit "code:%d msg:%s")
                   [Py.VInt (status_code rsp); Py.VStr (reason rsp)]) ;;
    raise (NetException msg)
  else ret (content rsp).

(** [do_request]: the response container is handed in and handed back, with
    the outcome of the call and the state of the run. *)
Definition do_request (self : HttpCaller) (url : str) (request : Req)
    (response : Rsp) (opts : list Option) (w : World)
    : result unit * Rsp * World :=
  let req_bytes := gzip_compress (SerializeToString request) in
  let options := conv_to_options opts in
  let exchange :=
    headers <- _build_headers self options req_bytes ;;
    _do_http_request url headers req_bytes (timeout options) in
  match exchange w with
  | (Raise e, w1) => (Raise e, response, w1)
  | (Ok None, w1) => (Ok tt, response, w1)
  | (Ok (Some rsp_bytes), w1) =>
      match ParseFromString response rsp_bytes with
      | Parsed m => (Ok tt, m, w1)
      | ParseFailed m err =>
          match
            (log_call ERROR "[ByteplusSDK] parse response fail, err:%s url:%s"
               [Py.VStr err; Py.VStr url] ;;;
             raise (BizException (Py.lit "parse response fail"))) w1
          with
          | (r, w2) => (r, m, w2)
          end
      end
  end.

End Caller.

(* ===================================================================== *)
(** ** The signature in the spec's words *)
(* ===================================================================== *)

(** The SHA-256 digest of the concatenation of the UTF-8 encoding of the
    token, the compressed body, and the UTF-8 encodings of the tenant id, the
    timestamp and the nonce, as lowercase hexadecimal digits. *)
Definition signature_of_concatenation (token tenant_id : str) (body : bytes)
    (ts nonce : str) : result str :=
  match Py.utf8 token, Py.utf8 tenant_id, Py.utf8 ts, Py.utf8 nonce with
  | Some t, Some i, Some s, Some n =>
      Ok (Py.hexlify (SHA256.hash (t ++ body ++ i ++ s ++ n)))
  | _, _, _, _ => Raise UnicodeEncodeError
  end.

(** The request that [_do_http_request] hands to the transport. *)
Definition posted (url : str) (headers : gmap str str) (body : bytes)
    (timeout : option timedelta) : http_request :=
  {| post_url := url; post_headers := headers; post_data := body;
     post_timeout := total_seconds <$> timeout |}.

(** What [_do_http_request] makes of the outcome of the POST. *)
Definition classify (env : Env) (outcome : post_outcome) : result (option bytes) :=
  match outcome with
  | Fails e =>
      if Py.contains (Py.lit "timeout") (Py.lower (unicode_lower env) e)
      then Raise (NetException e)
      else Raise (BizException e)
  | Responds rsp =>
      if (status_code rsp =? 200)%Z then Ok (content rsp)
      else Raise (NetException (Py.lit "code:%d msg:%s"))
  end.

(** What [do_request] makes of it: the outcome of the call and the response
    container after it. *)
Definition settle {Rsp : Type} `{!Parsable Rsp} (response : Rsp)
    (c : result (option bytes)) : result unit * Rsp :=
  match c with
  | Raise e => (Raise e, response)
  | Ok None => (Ok tt, response)
  | Ok (Some rsp_bytes) =>
      match ParseFromString response rsp_bytes with
      | Parsed m => (Ok tt, m)
      | ParseFailed m _ => (Raise (BizException (Py.lit "parse response fail")), m)
      end
  end.

(** Both strings of the context have a UTF-8 encoding. *)
Definition credentials_encodable (self : HttpCaller) : bool :=
  Py.encodable (token (_context self)) && Py.encodable (tenant_id (_context self)).

(** The current Unix time, truncated to integer seconds, in decimal. *)
Definition timestamp_at (env : Env) (w : World) : str :=
  Py.str_of_int (Py.int_of_float (time_at env (clock w))).

(** The header table of the spec: the nine headers of an outbound request,
    given the values of the five that vary. *)
Definition header_set (request_id tenant_id ts nonce signature : str)
    : gmap str str :=
  list_to_map
    [(Py.lit "Tenant-Signature", signature);
     (Py.lit "Tenant-Nonce", nonce);
     (Py.lit "Tenant-Ts", ts);
     (Py.lit "Tenant-Id", tenant_id);
     (Py.lit "Request-Id", request_id);
     (Py.lit "Accept", Py.lit "application/x-protobuf");
     (Py.lit "Content-Type", Py.lit "application/x-protobuf");
     (Py.lit "Accept-Encoding", Py.lit "gzip");
     (Py.lit "Content-Encoding", Py.lit "gzip")].

(* ===================================================================== *)
(** ** Test doubles *)
(* ===================================================================== *)

(** A mock transport with a fixed answer, toy messages and a toy codec, on
    which the statements below are run. *)
Module Mock.

(** A message that is a blob of at most 255 octets, serialized with its
    length in front; parsing clears the container first. *)
Definition blob_serialize (payload : bytes) : bytes :=
  Py.byte_of_N (N.of_nat (length payload)) :: payload.

Definition blob_parse (container : bytes) (b : bytes) : parse_outcome bytes :=
  match b with
  | n :: payload =>
      if N.to_nat (Byte.to_N n) =? length payload then Parsed payload
      else ParseFailed [] (Py.lit "Error parsing message: truncated")
  | [] => ParseFailed [] (Py.lit "Error parsing message: empty")
  end.

Definition blob_serializable : Serializable bytes := blob_serialize.
Definition blob_parsable : Parsable bytes := blob_parse.

(** A codec that frames the data with the two magic octets of gzip. *)
Definition frame_compress (d : bytes) : bytes := "031"%byte :: "139"%byte :: d.

Definition frame_decompress (b : bytes) : option bytes :=
  match b with
  | "031"%byte :: "139"%byte :: d => Some d
  | _ => None
  end.

Definition framing : Gzip :=
  {| gzip_compress := frame_compress; gzip_decompress := frame_decompress |}.

(** An environment whose transport gives the same answer to every request. *)
Definition env (answer : post_outcome) : Env :=
  {| time_at := fun k => Qmake (6800000001 + Z.of_nat k) 4;
     draw_at := fun k => 7 * k + 3;
     uuid_at := fun k => (0x1b4e28ba2fa111d2883f0016d3cca427 + N.of_nat k)%N;
     requests_post := fun _ => answer;
     unicode_lower := fun _ c _ => [c] |}.

Definition caller : HttpCaller :=
  {| _context := {| tenant_id := Py.lit "tenant-1"; token := Py.lit "s3cret" |} |}.

Definition url : str := Py.lit "https://api.example.com/v1/write".

Definition request : bytes := ["h"%byte; "i"%byte].

Definition empty_response : bytes := [].

Definition http (status : Z) (phrase : string) (body : option bytes) : post_outcome :=
  Responds {| status_code := status; reason := Py.lit phrase; content := body |}.

(** One call of [do_request] against a transport that gives [answer]. *)
Definition call (answer : post_outcome) : result unit * bytes * World :=
  @do_request bytes bytes blob_serializable blob_parsable framing
    (env answer) caller url request empty_response [] initial_world.

End Mock.

(* ===================================================================== *)
(** ** Measures on logs and header sets *)
(* ===================================================================== *)

Definition is_level (lv : log_level) (r : log_record) : bool :=
  match lv, level r with
  | DEBUG, DEBUG => true
  | ERROR, ERROR => true
  | _, _ => false
  end.

(** The number of records of a level in a stretch of the log. *)
Definition count_level (lv : log_level) (l : list log_record) : nat :=
  length (List.filter (is_level lv) l).

(** The names of the headers of an outbound request. *)
Definition header_names : list str :=
  [Py.lit "Content-Encoding"; Py.lit "Accept-Encoding"; Py.lit "Content-Type";
   Py.lit "Accept"; Py.lit "Request-Id"; Py.lit "Tenant-Id"; Py.lit "Tenant-Ts";
   Py.lit "Tenant-Nonce"; Py.lit "Tenant-Signature"].


(** Lower case of an ASCII letter; every other code point is left alone. *)
Definition ascii_lower (c : N) : N :=
  if ((65 <=? c) && (c <=? 90))%N then (c + 32)%N else c.

(** Reading back the text of a UUID: the value of a hexadecimal digit, the
    octets of a run of digits, the number of a run of octets, and the digits
    of the five groups without the hyphens. *)
Definition hex_val (c : N) : N := if (c <? 58)%N then (c - 48)%N else (c - 87)%N.

Fixpoint unhexlify (s : str) : bytes :=
  match s with
  | c1 :: c2 :: rest => Py.byte_of_N (16 * hex_val c1 + hex_val c2) :: unhexlify rest
  | _ => []
  end.

Definition be_to_N (b : bytes) : N :=
  fold_left (fun acc x => (acc * 256 + Byte.to_N x)%N) b 0%N.

Definition ungroup (s : str) : str :=
  take 8 s ++ take 4 (drop 9 s) ++ take 4 (drop 14 s) ++ take 4 (drop 19 s)
    ++ drop 24 s.

Definition uuid_of_str (s : str) : N := be_to_N (unhexlify (ungroup s)).

(* ===================================================================== *)
(** * Properties *)
(* ===================================================================== *)

(** ** The library models on known values *)

(** The SHA-256 test vectors of FIPS 180-4: one block, the empty message, and
    a message that needs two blocks. *)
Example sha256_abc :
  Py.hexlify (SHA256.hash (list_byte_of_string "abc"))
  = Py.lit "ba7816bf8f01cfea414140de5dae2223b00361a396177a9cb410ff61f20015ad".
Proof. vm_compute. reflexivity. Qed.

Example sha256_empty :
  Py.hexlify (SHA256.hash [])
  = Py.lit "e3b0c44298fc1c149afbf4c8996fb92427ae41e4649b934ca495991b7852b855".
Proof. vm_compute. reflexivity. Qed.

Example sha256_two_blocks :
  Py.hexlify (SHA256.hash (list_byte_of_string
                "abcdbcdecdefdefgefghfghighijhijkijkljklmklmnlmnomnopnopq"))
  = Py.lit "248d6a61d20638b8e5c026930c3e6039a33ce45964ff2167f6ecedd419db06c1".
Proof. vm_compute. reflexivity. Qed.

Example sha256_constants :
  nth 0 SHA256.H0 0%Z = 0x6a09e667%Z /\ nth 7 SHA256.H0 0%Z = 0x5be0cd19%Z
  /\ nth 0 SHA256.K 0%Z = 0x428a2f98%Z /\ nth 63 SHA256.K 0%Z = 0xc67178f2%Z.
Proof. repeat split. Qed.

(** An object fed in pieces, as [_cal_signature] feeds it. *)
Example hexdigest_in_pieces :
  Hashlib.hexdigest
    (Hashlib.update (Hashlib.update Hashlib.sha256 (list_byte_of_string "a"))
       (list_byte_of_string "bc"))
  = Py.lit "ba7816bf8f01cfea414140de5dae2223b00361a396177a9cb410ff61f20015ad".
Proof. vm_compute. reflexivity. Qed.

(** UTF-8 on one, two, three and four octets; a lone surrogate has none. *)
Example utf8_widths :
  Py.utf8 [0x41; 0xE9; 0x20AC; 0x10348]%N
  = Some ["065"; "195"; "169"; "226"; "130"; "172"; "240"; "144"; "141"; "136"]%byte
  /\ Py.utf8 [0x41; 0xD800]%N = None.
Proof. split; reflexivity. Qed.

(** [str.format] fills brace fields, and only those. *)
Example format_braces :
  Py.format (Py.lit "code:{} msg:{}")
    [Py.VInt 500; Py.VStr (Py.lit "Internal Server Error")]
  = Ok (Py.lit "code:500 msg:Internal Server Error").
Proof. reflexivity. Qed.

Example format_percent :
  Py.format (Py.lit "code:%d msg:%s")
    [Py.VInt 500; Py.VStr (Py.lit "Internal Server Error")]
  = Ok (Py.lit "code:%d msg:%s").
Proof. reflexivity. Qed.

Example bytes_repr_escapes :
  Py.bytes_repr ["a"; "'"; "010"; "255"; "\"]%byte
  = [98; 34; 97; 39; 92; 110; 92; 120; 102; 102; 92; 92; 34]%N.
Proof. reflexivity. Qed.

Example str_of_uuid_groups :
  Uuid.str_of_uuid 0x1b4e28ba2fa111d2883f0016d3cca427
  = Py.lit "1b4e28ba-2fa1-11d2-883f-0016d3cca427".
Proof. vm_compute. reflexivity. Qed.

(** [random.sample] of the alphabet when the generator's [_randbelow] returns
    [(7 i + 3) mod m] at its [i]-th call. *)
Example sample_alphabet :
  Random.sample (fun i m => (7 * i + 3) mod m) Random.alphabet 8 0
  = Ok (Py.lit "dkryFMT0").
Proof. vm_compute. reflexivity. Qed.

(** The headers of the test caller at the first call: clock at
    1700000000.25, generator as above. *)
Example mock_headers :
  exists headers w',
    _build_headers (Mock.env (Fails [])) Mock.caller (conv_to_options [])
      (Mock.frame_compress (Mock.blob_serialize Mock.request)) initial_world
    = (Ok headers, w')
    /\ headers !! Py.lit "Tenant-Ts" = Some (Py.lit "1700000000")
    /\ headers !! Py.lit "Tenant-Nonce" = Some (Py.lit "dkryFMT0")
    /\ headers !! Py.lit "Tenant-Signature"
       = Some (Py.lit "192c73ddaa734047761910395ab3d3d7d67824227690549fa23731e3f98a7f47")
    /\ headers !! Py.lit "Request-Id"
       = Some (Py.lit "1b4e28ba-2fa1-11d2-883f-0016d3cca427").
Proof. eexists _, _. split; [vm_compute; reflexivity|]. repeat split. Qed.

(** The transport failures of the spec's examples, and the parse failure. *)
Example mock_timeout :
  (Mock.call (Fails (Py.lit "Read timed out. (read timeout=1)"))).1.1
  = Raise (NetException (Py.lit "Read timed out. (read timeout=1)")).
Proof. vm_compute. reflexivity. Qed.

Example mock_refused :
  (Mock.call (Fails (Py.lit "Connection refused"))).1.1
  = Raise (BizException (Py.lit "Connection refused")).
Proof. vm_compute. reflexivity. Qed.

Example mock_malformed :
  (Mock.call (Mock.http 200 "OK" (Some ["003"; "A"]%byte))).1
  = (Raise (BizException (Py.lit "parse response fail")), []).
Proof. vm_compute. reflexivity. Qed.

(** ** Substrings and truncation *)

Lemma startswith_prefix (s sub : str) :
  Py.startswith s sub = true <-> exists post, s = sub ++ post.
Proof.
  revert s. induction sub as [|a sub IH]; intros s.
  - split; [eauto|]. intros _. by destruct s.
  - destruct s as [|b s]; cbn.
    + split; [discriminate|]. intros [? ?]. discriminate.
    + rewrite andb_true_iff, IH, N.eqb_eq. split.
      * intros [-> [post ->]]. eauto.
      * intros [post [= -> ->]]. eauto.
Qed.

(** [contains sub s] holds exactly when [sub] occurs in [s]. *)
Lemma contains_infix (sub s : str) :
  Py.contains sub s = true <-> exists pre post, s = pre ++ sub ++ post.
Proof.
  induction s as [|c s IH]; cbn [Py.contains].
  - rewrite orb_false_r, startswith_prefix. split.
    + intros [post ->]. by exists [], post.
    + intros (pre & post & H). destruct pre as [|? ?]; [|discriminate].
      exists post. exact H.
  - rewrite orb_true_iff, startswith_prefix, IH. split.
    + intros [[post ->]|(pre & post & ->)].
      * by exists [], post.
      * by exists (c :: pre), post.
    + intros (pre & post & H). destruct pre as [|x pre].
      * left. exists post. exact H.
      * right. injection H as -> ->. eauto.
Qed.

(** [int_of_float] truncates: on a reading that is not negative it is the
    integer part. *)
Lemma int_of_float_floor (x : Q) :
  (0 <= Qnum x)%Z ->
  (inject_Z (Py.int_of_float x) <= x)%Q /\ (x < inject_Z (Py.int_of_float x + 1))%Q.
Proof.
  intros Hx. unfold Py.int_of_float, Qle, Qlt, inject_Z. cbn [Qnum Qden].
  rewrite Z.quot_div_nonneg by lia.
  pose proof (Z.div_mod (Qnum x) (Zpos (Qden x)) ltac:(lia)) as Hdm.
  pose proof (Z.mod_pos_bound (Qnum x) (Zpos (Qden x)) ltac:(lia)) as Hb.
  split; nia.
Qed.

(** ** The incremental hash object against the hash of a whole message *)

Lemma chunks_app_le (n : nat) (a b : bytes) :
  64 * n <= length a -> SHA256.chunks n (a ++ b) = SHA256.chunks n a.
Proof.
  revert a. induction n as [|n IH]; intros a Hlen; [reflexivity|].
  cbn [SHA256.chunks].
  rewrite take_app_le by lia. rewrite drop_app_le by lia.
  rewrite IH; [reflexivity|]. rewrite length_drop. lia.
Qed.

Lemma chunks_add (n m : nat) (l : bytes) :
  SHA256.chunks (n + m) l = SHA256.chunks n l ++ SHA256.chunks m (drop (64 * n) l).
Proof.
  revert l. induction n as [|n IH]; intros l.
  - reflexivity.
  - cbn [SHA256.chunks Nat.add]. rewrite IH. rewrite drop_drop.
    replace (64 + 64 * n) with (64 * S n) by lia. reflexivity.
Qed.

Lemma absorb_chunks (n : nat) (h : list Z) (buf : bytes) :
  Hashlib.absorb n h buf
  = (fold_left SHA256.compress (SHA256.chunks n buf) h, drop (64 * n) buf).
Proof.
  revert h buf. induction n as [|n IH]; intros h buf.
  - reflexivity.
  - cbn [Hashlib.absorb SHA256.chunks fold_left]. rewrite IH, drop_drop.
    replace (64 + 64 * n) with (64 * S n) by lia. reflexivity.
Qed.

Lemma blocks_split (a b : bytes) :
  let n1 := length a / 64 in
  let n2 := length (drop (64 * n1) a ++ b) / 64 in
  length (a ++ b) / 64 = n1 + n2.
Proof.
  cbv zeta. rewrite !length_app, length_drop.
  pose proof (Nat.div_mod_eq (length a) 64) as Hdm.
  replace (length a - 64 * (length a / 64)) with (length a mod 64) by lia.
  replace (length a + length b)
    with (length a / 64 * 64 + (length a mod 64 + length b)) by lia.
  rewrite Nat.div_add_l by lia. reflexivity.
Qed.

Lemma update_chunks (o : Hashlib.sha256_obj) (d : bytes) :
  Hashlib.update o d
  = let buf := Hashlib.pending o ++ d in
    Hashlib.Sha256Obj
      (fold_left SHA256.compress (SHA256.chunks (length buf / 64) buf) (Hashlib.chain o))
      (drop (64 * (length buf / 64)) buf)
      (Hashlib.fed o + length d).
Proof. unfold Hashlib.update. rewrite absorb_chunks. reflexivity. Qed.

(** Feeding two pieces one after the other is feeding their concatenation. *)
Lemma update_update (o : Hashlib.sha256_obj) (a b : bytes) :
  Hashlib.update (Hashlib.update o a) b = Hashlib.update o (a ++ b).
Proof.
  rewrite !update_chunks. cbv zeta.
  cbn [Hashlib.chain Hashlib.pending Hashlib.fed].
  set (buf := Hashlib.pending o ++ a).
  replace (Hashlib.pending o ++ a ++ b) with (buf ++ b)
    by (unfold buf; by rewrite <- app_assoc).
  pose proof (blocks_split buf b) as Hn. cbv zeta in Hn. rewrite Hn.
  set (n1 := length buf / 64) in *.
  set (n2 := length (drop (64 * n1) buf ++ b) / 64) in *.
  assert (Hle : 64 * n1 <= length buf).
  { unfold n1. pose proof (Nat.div_mod_eq (length buf) 64). lia. }
  f_equal.
  - rewrite chunks_add, fold_left_app, (chunks_app_le n1 buf b Hle).
    rewrite (drop_app_le buf b (64 * n1) Hle). reflexivity.
  - replace (64 * (n1 + n2)) with (64 * n1 + 64 * n2) by lia.
    rewrite <- drop_drop, (drop_app_le buf b (64 * n1) Hle). reflexivity.
  - rewrite length_app. lia.
Qed.

(** The digest of an object that was fed a message is the SHA-256 hash of the
    message. *)
Lemma digest_update (msg : bytes) :
  Hashlib.digest (Hashlib.update Hashlib.sha256 msg) = SHA256.hash msg.
Proof.
  assert (Hdig : forall o, Hashlib.digest o
            = SHA256.digest_bytes
                (Hashlib.chain (Hashlib.update o (SHA256.padding (Hashlib.fed o))))).
  { intros o. rewrite update_chunks. unfold Hashlib.digest.
    rewrite absorb_chunks. reflexivity. }
  rewrite Hdig, update_update.
  rewrite (update_chunks _ msg) at 1. cbv zeta. cbn [Hashlib.fed Hashlib.sha256 Nat.add].
  rewrite update_chunks. reflexivity.
Qed.

(** ** Encoding and rendering *)

Lemma is_scalar_spec (c : N) :
  Py.is_scalar c = true
  <-> (c < 0x110000 /\ ~ (0xD800 <= c /\ c <= 0xDFFF))%N.
Proof.
  unfold Py.is_scalar.
  destruct (N.ltb_spec c 0x110000), (N.leb_spec 0xD800 c), (N.leb_spec c 0xDFFF);
    cbn; split; try lia; try discriminate; intros _; lia.
Qed.

Lemma utf8_code_point_scalar (c : N) :
  Py.is_scalar c = true <-> is_Some (Py.utf8_code_point c).
Proof.
  rewrite is_scalar_spec. unfold Py.utf8_code_point.
  destruct (N.ltb_spec c 0x80); [split; [eauto|lia]|].
  destruct (N.ltb_spec c 0x800); [split; [eauto|lia]|].
  destruct (N.ltb_spec c 0x10000).
  - destruct (N.leb_spec 0xD800 c), (N.leb_spec c 0xDFFF); cbn;
      split; try (by eauto); try lia; intros [? ?]; discriminate.
  - destruct (N.ltb_spec c 0x110000).
    + split; [eauto|lia].
    + split; [lia|]. intros [? ?]; discriminate.
Qed.

(** A string has a UTF-8 encoding exactly when it holds scalar values only. *)
Lemma utf8_encodable (s : str) :
  Py.encodable s = true <-> is_Some (Py.utf8 s).
Proof.
  induction s as [|c s IH]; cbn.
  - split; eauto.
  - rewrite andb_true_iff, IH, utf8_code_point_scalar.
    destruct (Py.utf8_code_point c), (Py.utf8 s); split;
      try (intros [[? ?] [? ?]]; discriminate);
      try (intros [? ?]; discriminate); eauto.
Qed.

Lemma utf8_not_encodable (s : str) :
  Py.encodable s = false -> Py.utf8 s = None.
Proof.
  intros H. destruct (Py.utf8 s) eqn:E; [|reflexivity].
  assert (Py.encodable s = true) by (apply utf8_encodable; eauto). congruence.
Qed.

Lemma hexlify_length (b : bytes) : length (Py.hexlify b) = 2 * length b.
Proof.
  unfold Py.hexlify. induction b as [|x b IH]; [reflexivity|].
  cbn [map concat]. rewrite length_app, IH. cbn. lia.
Qed.

Lemma hexlify_lower_hex (b : bytes) : forallb Py.is_lower_hex (Py.hexlify b) = true.
Proof.
  unfold Py.hexlify. induction b as [|x b IH]; [reflexivity|].
  cbn [map concat]. rewrite forallb_app, IH, andb_true_r.
  destruct x; reflexivity.
Qed.

Lemma compress_length (h : list Z) (block : bytes) :
  length h = 8 -> length (SHA256.compress h block) = 8.
Proof.
  intros Hh. unfold SHA256.compress.
  rewrite length_map, length_combine, Hh. reflexivity.
Qed.

Lemma hash_length (msg : bytes) : length (SHA256.hash msg) = 32.
Proof.
  unfold SHA256.hash.
  assert (H8 : forall bs h, length h = 8 ->
            length (fold_left SHA256.compress bs h) = 8).
  { induction bs as [|b bs IH]; intros h Hh; [exact Hh|].
    cbn [fold_left]. apply IH, compress_length, Hh. }
  specialize (H8 (SHA256.blocks (msg ++ SHA256.padding (length msg))) SHA256.H0 eq_refl).
  destruct (fold_left _ _ _) as [|a [|b [|c [|d [|e [|f [|g [|h [|]]]]]]]]];
    try discriminate.
  reflexivity.
Qed.

(** ** C1: the signature *)

Lemma cal_signature_concat (self : HttpCaller) (req_bytes : bytes) (ts nonce : str) :
  _cal_signature self req_bytes ts nonce
  = signature_of_concatenation
      (token (_context self)) (tenant_id (_context self)) req_bytes ts nonce.
Proof.
  unfold _cal_signature, signature_of_concatenation, Py.encode, bind_result.
  destruct (Py.utf8 (token (_context self))) as [b1|]; [|reflexivity].
  destruct (Py.utf8 (tenant_id (_context self))) as [b3|]; [|reflexivity].
  destruct (Py.utf8 ts) as [b4|]; [|reflexivity].
  destruct (Py.utf8 nonce) as [b5|]; [|reflexivity].
  unfold Hashlib.hexdigest. rewrite !update_update, digest_update. reflexivity.
Qed.

(** C1. [_cal_signature] is the SHA-256 digest of the concatenation, in this
    order, of the UTF-8 encoding of the token, the compressed body, and the
    UTF-8 encodings of the tenant id, the timestamp string and the nonce
    string, rendered in hexadecimal; the rendering has 64 digits, all of them
    among [0-9a-f]. Where one of the four strings has no UTF-8 encoding the
    call raises [UnicodeEncodeError], in the code as in the reference. *)
Theorem cal_signature_is_sha256_of_concatenation
    (self : HttpCaller) (req_bytes : bytes) (ts nonce : str) :
  _cal_signature self req_bytes ts nonce
  = signature_of_concatenation
      (token (_context self)) (tenant_id (_context self)) req_bytes ts nonce
  /\ match _cal_signature self req_bytes ts nonce with
     | Ok signature =>
         length signature = 64 /\ forallb Py.is_lower_hex signature = true
     | Raise e => e = UnicodeEncodeError
     end.
Proof.
  split; [apply cal_signature_concat|].
  rewrite cal_signature_concat. unfold signature_of_concatenation.
  destruct (Py.utf8 (token (_context self))); [|reflexivity].
  destruct (Py.utf8 (tenant_id (_context self))); [|reflexivity].
  destruct (Py.utf8 ts); [|reflexivity].
  destruct (Py.utf8 nonce); [|reflexivity].
  rewrite hexlify_length, hash_length, hexlify_lower_hex. split; reflexivity.
Qed.

(** ** Sampling without replacement *)

Section SampleFacts.
Context {A : Type}.
Variable randbelow : nat -> nat -> nat.
Hypothesis randbelow_lt : forall pos m, 0 < m -> randbelow pos m < m.

(** One step of the selection: the selected item together with the shrunk
    pool is a rearrangement of the pool before the step. *)
Lemma select_permutation (pool : list A) (m j : nat) (x last : A) :
  j < m ->
  pool !! j = Some x ->
  pool !! (m - 1) = Some last ->
  x :: take (m - 1) (<[j := last]> pool) ≡ₚ take m pool.
Proof.
  intros Hj Hx Hlast.
  replace m with (S (m - 1)) at 2 by lia.
  rewrite (take_S_r pool (m - 1) last Hlast).
  destruct (decide (j = m - 1)) as [->|Hne].
  - assert (x = last) as -> by congruence.
    rewrite list_insert_id by exact Hlast.
    apply Permutation_cons_append.
  - assert (Hj' : j < m - 1) by lia.
    rewrite take_insert_lt by exact Hj'.
    set (T := take (m - 1) pool).
    assert (HT : T !! j = Some x) by (unfold T; by rewrite lookup_take_lt).
    assert (HlenT : j < length T) by (eapply lookup_lt_Some; exact HT).
    rewrite insert_take_drop by exact HlenT.
    rewrite <- (take_drop_middle T j x HT) at 3.
    rewrite <- app_assoc. cbn [app].
    rewrite <- !Permutation_middle, app_nil_r. reflexivity.
Qed.

Lemma sample_loop_ok (n k : nat) :
  forall (pool : list A) (i pos : nat),
    length pool = n -> i + k <= n ->
    exists l, Random.sample_loop randbelow pool n i k pos = Ok l
              /\ length l = k /\ l ⊆+ take (n - i) pool.
Proof.
  induction k as [|k IH]; intros pool i pos Hlen Hik.
  - exists []. cbn. split; [reflexivity|]. split; [reflexivity|].
    apply submseteq_nil_l.
  - cbn [Random.sample_loop]. cbv zeta.
    assert (Hj : randbelow pos (n - i) < n - i) by (apply randbelow_lt; lia).
    set (j := randbelow pos (n - i)) in *.
    destruct (lookup_lt_is_Some_2 pool j) as [x Hx]; [lia|].
    destruct (lookup_lt_is_Some_2 pool (n - i - 1)) as [last Hlast]; [lia|].
    rewrite Hx, Hlast.
    destruct (IH (<[j := last]> pool) (S i) (S pos)) as (l & Hl & Hlenl & Hsub).
    { rewrite length_insert. exact Hlen. }
    { lia. }
    rewrite Hl. exists (x :: l). split; [reflexivity|]. split; [cbn; lia|].
    rewrite <- (select_permutation pool (n - i) j x last Hj Hx Hlast).
    apply submseteq_skip.
    replace (n - i - 1) with (n - S i) by lia. exact Hsub.
Qed.

(** [sample] returns [k] items that are a sub-multiset of the population:
    no position of the population is selected twice. *)
Lemma sample_ok (population : list A) (k pos : nat) :
  k <= length population ->
  exists l, Random.sample randbelow population k pos = Ok l
            /\ length l = k /\ l ⊆+ population.
Proof.
  intros Hk. unfold Random.sample.
  replace (k <=? length population) with true by (symmetry; by apply Nat.leb_le).
  destruct (sample_loop_ok (length population) k population 0 pos eq_refl)
    as (l & Hl & Hlen & Hsub); [lia|].
  exists l. split; [exact Hl|]. split; [exact Hlen|].
  rewrite Nat.sub_0_r, take_ge in Hsub by lia. exact Hsub.
Qed.

End SampleFacts.

Lemma submseteq_NoDup {A : Type} (l k : list A) : l ⊆+ k -> NoDup k -> NoDup l.
Proof.
  intros Hsub Hk. destruct (submseteq_Permutation l k Hsub) as [r Hr].
  rewrite Hr in Hk. by apply NoDup_app in Hk as [? _].
Qed.

Lemma alphabet_NoDup : NoDup Random.alphabet.
Proof.
  refine (bool_decide_eq_true_1 (NoDup Random.alphabet) _).
  vm_compute. reflexivity.
Qed.

Lemma alphabet_in_alphabet : forallb Random.in_alphabet Random.alphabet = true.
Proof. vm_compute. reflexivity. Qed.

Lemma alphabet_length : length Random.alphabet = 62.
Proof. reflexivity. Qed.

Lemma join_singletons (l : str) : Py.join [] (map (fun c => [c]) l) = l.
Proof.
  induction l as [|c l IH]; [reflexivity|].
  destruct l as [|d l]; [reflexivity|].
  cbn [map Py.join] in *. rewrite IH. reflexivity.
Qed.

(** ** Timestamps and nonces are ASCII, hence have a UTF-8 encoding *)

Lemma ascii_encodable (s : str) : forallb Py.is_ascii s = true -> Py.encodable s = true.
Proof.
  unfold Py.encodable. induction s as [|c s IH]; [reflexivity|].
  cbn [forallb]. rewrite !andb_true_iff. intros [Hc Hs]. split; [|by apply IH].
  unfold Py.is_ascii in Hc. unfold Py.is_scalar.
  destruct (N.ltb_spec c 128); [|discriminate].
  destruct (N.ltb_spec c 0x110000), (N.leb_spec 0xD800 c); try lia; reflexivity.
Qed.

Lemma string_of_uint_ascii (d : Decimal.uint) :
  forallb Py.is_ascii (Py.lit (NilEmpty.string_of_uint d)) = true.
Proof. induction d; cbn; auto. Qed.

Lemma str_of_int_ascii (n : Z) : forallb Py.is_ascii (Py.str_of_int n) = true.
Proof.
  unfold Py.str_of_int, NilZero.string_of_int, NilZero.string_of_uint.
  destruct (Z.to_int n) as [d|d].
  - destruct d; try reflexivity; apply (string_of_uint_ascii (_ d)).
  - destruct d; try reflexivity.
    all: rewrite (eq_refl : Py.lit (String "-" _) = 45%N :: Py.lit _).
    all: cbn [forallb]; rewrite string_of_uint_ascii; reflexivity.
Qed.

Lemma in_alphabet_ascii (c : N) : Random.in_alphabet c = true -> Py.is_ascii c = true.
Proof.
  unfold Random.in_alphabet, Py.is_ascii.
  destruct (N.leb_spec c 122), (N.leb_spec c 90), (N.leb_spec c 57),
    (N.ltb_spec c 128); try lia; try reflexivity;
    rewrite ?andb_false_r; cbn; intros; try discriminate; lia.
Qed.

Lemma forallb_submseteq {A : Type} (P : A -> bool) (l k : list A) :
  l ⊆+ k -> forallb P k = true -> forallb P l = true.
Proof.
  intros Hsub Hk. rewrite forallb_forall in *. intros x Hx. apply Hk.
  apply list_elem_of_In. eapply elem_of_submseteq; [|exact Hsub].
  by apply list_elem_of_In.
Qed.

Lemma forallb_impl {A : Type} (P Q : A -> bool) (l : list A) :
  (forall x, P x = true -> Q x = true) -> forallb P l = true -> forallb Q l = true.
Proof.
  intros HPQ. rewrite !forallb_forall. auto.
Qed.

(** ** Building the headers *)

Lemma header_set_lookup (rid tid ts nonce sig : str) :
  let hs := header_set rid tid ts nonce sig in
  hs !! Py.lit "Content-Encoding" = Some (Py.lit "gzip")
  /\ hs !! Py.lit "Accept-Encoding" = Some (Py.lit "gzip")
  /\ hs !! Py.lit "Content-Type" = Some (Py.lit "application/x-protobuf")
  /\ hs !! Py.lit "Accept" = Some (Py.lit "application/x-protobuf")
  /\ hs !! Py.lit "Request-Id" = Some rid
  /\ hs !! Py.lit "Tenant-Id" = Some tid
  /\ hs !! Py.lit "Tenant-Ts" = Some ts
  /\ hs !! Py.lit "Tenant-Nonce" = Some nonce
  /\ hs !! Py.lit "Tenant-Signature" = Some sig.
Proof.
  cbv zeta. unfold header_set. cbn [list_to_map foldr fst snd uncurry].
  repeat split;
    repeat (rewrite lookup_insert_ne by (vm_compute; discriminate));
    apply lookup_insert_eq.
Qed.

Section HeaderFacts.
Variable env : Env.
Variable self : HttpCaller.

Lemma randbelow_lt (pos m : nat) : 0 < m -> randbelow env pos m < m.
Proof. intros Hm. unfold randbelow. apply Nat.mod_upper_bound. lia. Qed.

(** The nonce drawn at a position of the generator. *)
Lemma nonce_drawn (pos : nat) :
  exists nonce,
    Random.sample (randbelow env) Random.alphabet 8 pos = Ok nonce
    /\ length nonce = 8 /\ nonce ⊆+ Random.alphabet.
Proof.
  apply sample_ok; [apply randbelow_lt|]. rewrite alphabet_length. lia.
Qed.

Lemma nonce_encodable (nonce : str) :
  nonce ⊆+ Random.alphabet -> Py.encodable nonce = true.
Proof.
  intros Hsub. apply ascii_encodable.
  apply (forallb_impl Random.in_alphabet); [apply in_alphabet_ascii|].
  eapply forallb_submseteq; [exact Hsub|apply alphabet_in_alphabet].
Qed.

Lemma signature_ok (body : bytes) (ts nonce : str) :
  credentials_encodable self = true ->
  Py.encodable ts = true -> Py.encodable nonce = true ->
  exists sig, _cal_signature self body ts nonce = Ok sig.
Proof.
  unfold credentials_encodable. rewrite andb_true_iff. intros [Ht Hi] Hts Hn.
  rewrite cal_signature_concat. unfold signature_of_concatenation.
  apply utf8_encodable in Ht as [? ->]. apply utf8_encodable in Hi as [? ->].
  apply utf8_encodable in Hts as [? ->]. apply utf8_encodable in Hn as [? ->].
  eauto.
Qed.

Lemma signature_raises (body : bytes) (ts nonce : str) :
  credentials_encodable self = false ->
  _cal_signature self body ts nonce = Raise UnicodeEncodeError.
Proof.
  unfold credentials_encodable. rewrite andb_false_iff. intros Hc.
  rewrite cal_signature_concat. unfold signature_of_concatenation.
  destruct Hc as [Hc|Hc]; apply utf8_not_encodable in Hc; rewrite Hc.
  - reflexivity.
  - by destruct (Py.utf8 (token (_context self))).
Qed.

Lemma build_headers_ok (options : _Options) (body : bytes) (w : World) :
  credentials_encodable self = true ->
  exists rid nonce sig w',
    _build_headers env self options body w
    = (Ok (header_set rid (tenant_id (_context self)) (timestamp_at env w) nonce sig), w')
    /\ (rid, uuids w')
       = match request_id options with
         | Some r =>
             if 0 <? length r then (r, uuids w)
             else (Uuid.str_of_uuid (uuid_at env (uuids w)), S (uuids w))
         | None => (Uuid.str_of_uuid (uuid_at env (uuids w)), S (uuids w))
         end
    /\ Random.sample (randbelow env) Random.alphabet 8 (drawn w) = Ok nonce
    /\ _cal_signature self body (timestamp_at env w) nonce = Ok sig
    /\ clock w' = S (clock w) /\ drawn w' = drawn w + 8
    /\ log w' = log w /\ wire w' = wire w.
Proof.
  intros Hc.
  destruct (nonce_drawn (drawn w)) as (nonce & Hnonce & Hlen & Hsub).
  destruct (signature_ok body (timestamp_at env w) nonce Hc) as [sig Hsig].
  { apply ascii_encodable, str_of_int_ascii. }
  { by apply nonce_encodable. }
  assert (Hauth : forall hs w0, clock w0 = clock w -> drawn w0 = drawn w ->
    _with_auth_headers env self hs body w0
    = (Ok (<[Py.lit "Tenant-Signature" := sig]>
            (<[Py.lit "Tenant-Nonce" := nonce]>
              (<[Py.lit "Tenant-Ts" := timestamp_at env w]>
                (<[Py.lit "Tenant-Id" := tenant_id (_context self)]> hs)))),
       {| clock := S (clock w0); drawn := drawn w0 + 8; uuids := uuids w0;
          log := log w0; wire := wire w0 |})).
  { intros hs w0 Hclk Hdrw.
    unfold _with_auth_headers, bind, time_time, random_sample, lift, ret.
    cbn [clock drawn uuids log wire]. rewrite Hdrw, Hnonce, join_singletons.
    rewrite Hclk. fold (timestamp_at env w). rewrite Hsig. reflexivity. }
  unfold _build_headers. unfold bind at 1.
  destruct (request_id options) as [r|]; [destruct (0 <? length r)|].
  - unfold ret at 1. rewrite Hauth by reflexivity.
    exists r, nonce, sig. eexists. split; [reflexivity|].
    cbn [clock drawn uuids log wire]. tauto.
  - unfold bind at 1, uuid1, ret at 1. rewrite Hauth by reflexivity.
    eexists _, nonce, sig. eexists. split; [reflexivity|].
    cbn [clock drawn uuids log wire]. tauto.
  - unfold bind at 1, uuid1, ret at 1. rewrite Hauth by reflexivity.
    eexists _, nonce, sig. eexists. split; [reflexivity|].
    cbn [clock drawn uuids log wire]. tauto.
Qed.

Lemma build_headers_raises (options : _Options) (body : bytes) (w : World) :
  credentials_encodable self = false ->
  exists w',
    _build_headers env self options body w = (Raise UnicodeEncodeError, w')
    /\ log w' = log w /\ wire w' = wire w.
Proof.
  intros Hc.
  destruct (nonce_drawn (drawn w)) as (nonce & Hnonce & Hlen & Hsub).
  assert (Hauth : forall hs w0, drawn w0 = drawn w ->
    _with_auth_headers env self hs body w0
    = (Raise UnicodeEncodeError,
       {| clock := S (clock w0); drawn := drawn w0 + 8; uuids := uuids w0;
          log := log w0; wire := wire w0 |})).
  { intros hs w0 Hdrw.
    unfold _with_auth_headers, bind, time_time, random_sample, lift, ret.
    cbn [clock drawn uuids log wire]. rewrite Hdrw, Hnonce.
    rewrite (signature_raises _ _ _ Hc). reflexivity. }
  unfold _build_headers. unfold bind at 1.
  destruct (request_id options) as [r|]; [destruct (0 <? length r)|].
  - unfold ret at 1. rewrite Hauth by reflexivity. eexists. split; [reflexivity|].
    cbn [log wire]. tauto.
  - unfold bind at 1, uuid1, ret at 1. rewrite Hauth by reflexivity.
    eexists. split; [reflexivity|]. cbn [log wire]. tauto.
  - unfold bind at 1, uuid1, ret at 1. rewrite Hauth by reflexivity.
    eexists. split; [reflexivity|]. cbn [log wire]. tauto.
Qed.

End HeaderFacts.

Lemma N_to_be_length (n : nat) (x : N) : length (Uuid.N_to_be n x) = n.
Proof.
  revert x. induction n as [|n IH]; intros x; [reflexivity|].
  cbn [Uuid.N_to_be]. rewrite length_app, IH. cbn. lia.
Qed.

(** The text of a UUID has 36 characters. *)
Lemma str_of_uuid_length (x : N) : length (Uuid.str_of_uuid x) = 36.
Proof.
  unfold Uuid.str_of_uuid. cbv zeta.
  rewrite !length_app, !length_take, !length_drop, hexlify_length, N_to_be_length.
  reflexivity.
Qed.

Lemma str_of_uuid_nonempty (x : N) : Uuid.str_of_uuid x <> [].
Proof.
  intros H. pose proof (str_of_uuid_length x) as Hlen. rewrite H in Hlen.
  discriminate.
Qed.

(** ** C7: the Request-Id header *)

(** C7. Every header set that is built has a Request-Id entry, and its value
    is not empty. If the options carry a non-empty request id, the entry is
    that string and no identifier is generated; otherwise the entry is the
    text of the UUID generated at this call (the next value of the UUID
    source, which the call consumes). A header set is built whenever the two
    strings of the context have a UTF-8 encoding; otherwise signing raises
    [UnicodeEncodeError] and no header set exists. *)
Theorem build_headers_request_id
    (env : Env) (self : HttpCaller) (options : _Options) (body : bytes) (w : World) :
  if credentials_encodable self then
    exists headers w' rid,
      _build_headers env self options body w = (Ok headers, w')
      /\ headers !! Py.lit "Request-Id" = Some rid
      /\ rid <> []
      /\ (forall r, request_id options = Some r -> r <> [] ->
            rid = r /\ uuids w' = uuids w)
      /\ (request_id options = None \/ request_id options = Some [] ->
            rid = Uuid.str_of_uuid (uuid_at env (uuids w))
            /\ uuids w' = S (uuids w))
  else
    exists w', _build_headers env self options body w = (Raise UnicodeEncodeError, w').
Proof.
  destruct (credentials_encodable self) eqn:Hc.
  - destruct (build_headers_ok env self options body w Hc)
      as (rid & nonce & sig & w' & Hrun & Hrid & _).
    exists (header_set rid (tenant_id (_context self)) (timestamp_at env w) nonce sig),
      w', rid.
    split; [exact Hrun|]. split; [apply header_set_lookup|].
    destruct (request_id options) as [[|c r]|]; cbn [length Nat.ltb Nat.leb] in Hrid;
      injection Hrid as -> ->.
    + split; [apply str_of_uuid_nonempty|]. split; [congruence|]. auto.
    + split; [discriminate|]. split.
      * intros r' [= <-] _. auto.
      * intros [H|H]; discriminate.
    + split; [apply str_of_uuid_nonempty|]. split; [discriminate|]. auto.
  - destruct (build_headers_raises env self options body w Hc) as (w' & Hrun & _).
    exists w'. exact Hrun.
Qed.

(** ** C8: the fixed headers, the tenant id and the timestamp *)

(** C8. Every header set that is built has Content-Encoding and
    Accept-Encoding [gzip], Content-Type and Accept [application/x-protobuf],
    Tenant-Id equal to the tenant id of the context, and Tenant-Ts equal to
    the reading of the clock at the call, truncated to an integer and written
    in decimal. *)
Theorem build_headers_fixed_and_timestamp
    (env : Env) (self : HttpCaller) (options : _Options) (body : bytes) (w : World) :
  if credentials_encodable self then
    exists headers w',
      _build_headers env self options body w = (Ok headers, w')
      /\ headers !! Py.lit "Content-Encoding" = Some (Py.lit "gzip")
      /\ headers !! Py.lit "Accept-Encoding" = Some (Py.lit "gzip")
      /\ headers !! Py.lit "Content-Type" = Some (Py.lit "application/x-protobuf")
      /\ headers !! Py.lit "Accept" = Some (Py.lit "application/x-protobuf")
      /\ headers !! Py.lit "Tenant-Id" = Some (tenant_id (_context self))
      /\ headers !! Py.lit "Tenant-Ts"
         = Some (Py.str_of_int (Py.int_of_float (time_at env (clock w))))
  else
    exists w', _build_headers env self options body w = (Raise UnicodeEncodeError, w').
Proof.
  destruct (credentials_encodable self) eqn:Hc.
  - destruct (build_headers_ok env self options body w Hc)
      as (rid & nonce & sig & w' & Hrun & _).
    eexists _, w'. split; [exact Hrun|].
    pose proof (header_set_lookup rid (tenant_id (_context self))
                  (timestamp_at env w) nonce sig) as Hl.
    cbv zeta in Hl. unfold timestamp_at in Hl at 7. tauto.
  - destruct (build_headers_raises env self options body w Hc) as (w' & Hrun & _).
    exists w'. exact Hrun.
Qed.

(** ** C9 and C10: the nonce *)

(** C9. Every header set that is built has a Tenant-Nonce of exactly 8
    characters, each of them in [A-Za-z0-9]. The nonce is the sample drawn
    from the generator at this call, which consumes 8 draws, so that the next
    call draws anew; and the Tenant-Signature of the same header set is the
    signature computed with this nonce and with the Tenant-Ts of the set. *)
Theorem build_headers_nonce
    (env : Env) (self : HttpCaller) (options : _Options) (body : bytes) (w : World) :
  if credentials_encodable self then
    exists headers w' ts nonce signature,
      _build_headers env self options body w = (Ok headers, w')
      /\ headers !! Py.lit "Tenant-Nonce" = Some nonce
      /\ length nonce = 8
      /\ forallb Random.in_alphabet nonce = true
      /\ Random.sample (randbelow env) Random.alphabet 8 (drawn w) = Ok nonce
      /\ drawn w' = drawn w + 8
      /\ headers !! Py.lit "Tenant-Ts" = Some ts
      /\ headers !! Py.lit "Tenant-Signature" = Some signature
      /\ _cal_signature self body ts nonce = Ok signature
  else
    exists w', _build_headers env self options body w = (Raise UnicodeEncodeError, w').
Proof.
  destruct (credentials_encodable self) eqn:Hc.
  - destruct (build_headers_ok env self options body w Hc)
      as (rid & nonce & sig & w' & Hrun & _ & Hnonce & Hsig & _ & Hdrawn & _).
    destruct (nonce_drawn env (drawn w)) as (nonce' & Hnonce' & Hlen & Hsub).
    assert (nonce' = nonce) as -> by congruence.
    eexists _, w', (timestamp_at env w), nonce, sig. split; [exact Hrun|].
    pose proof (header_set_lookup rid (tenant_id (_context self))
                  (timestamp_at env w) nonce sig) as Hl.
    cbv zeta in Hl.
    assert (forallb Random.in_alphabet nonce = true)
      by (eapply forallb_submseteq; [exact Hsub|apply alphabet_in_alphabet]).
    tauto.
  - destruct (build_headers_raises env self options body w Hc) as (w' & Hrun & _).
    exists w'. exact Hrun.
Qed.

(** C10. The 8 characters of the Tenant-Nonce of a built header set are
    pairwise distinct: the sample takes no position of the 62-symbol alphabet
    twice. Hence some 8-character strings over [A-Za-z0-9], such as
    [aaaaaaaa], are never a nonce. *)
Theorem build_headers_nonce_distinct
    (env : Env) (self : HttpCaller) (options : _Options) (body : bytes) (w : World) :
  if credentials_encodable self then
    exists headers w' nonce,
      _build_headers env self options body w = (Ok headers, w')
      /\ headers !! Py.lit "Tenant-Nonce" = Some nonce
      /\ NoDup nonce
      /\ nonce ⊆+ Random.alphabet
      /\ length (Py.lit "aaaaaaaa") = 8
      /\ forallb Random.in_alphabet (Py.lit "aaaaaaaa") = true
      /\ nonce <> Py.lit "aaaaaaaa"
  else
    exists w', _build_headers env self options body w = (Raise UnicodeEncodeError, w').
Proof.
  destruct (credentials_encodable self) eqn:Hc.
  - destruct (build_headers_ok env self options body w Hc)
      as (rid & nonce & sig & w' & Hrun & _ & Hnonce & _).
    destruct (nonce_drawn env (drawn w)) as (nonce' & Hnonce' & Hlen & Hsub).
    assert (nonce' = nonce) as -> by congruence.
    assert (Hnd : NoDup nonce) by (eapply submseteq_NoDup; [exact Hsub|apply alphabet_NoDup]).
    eexists _, w', nonce. split; [exact Hrun|].
    split; [apply header_set_lookup|]. split; [exact Hnd|]. split; [exact Hsub|].
    split; [reflexivity|]. split; [reflexivity|].
    intros ->. apply NoDup_cons in Hnd as [Hin _]. apply Hin. left.
  - destruct (build_headers_raises env self options body w Hc) as (w' & Hrun & _).
    exists w'. exact Hrun.
Qed.

(** ** [str.format] on a template without braces *)

(** A template in which no brace occurs has no replacement field: the result
    of [format] is the template itself, whatever the arguments. *)
Lemma format_without_braces (t : str) (args : list Py.value) :
  forallb Py.no_brace t = true -> Py.format t args = Ok t.
Proof.
  unfold Py.format. generalize 0 false.
  induction t as [|c t IH]; intros next manual Hnb; [reflexivity|].
  cbn [forallb] in Hnb. apply andb_true_iff in Hnb as [Hc Ht].
  unfold Py.no_brace in Hc. apply andb_true_iff in Hc as [H1 H2].
  cbn [Py.format_from].
  destruct (c =? 123)%N; [discriminate|]. destruct (c =? 125)%N; [discriminate|].
  rewrite IH by exact Ht. reflexivity.
Qed.

Lemma format_code_msg (status : Z) (reason : str) :
  Py.format (Py.lit "code:%d msg:%s") [Py.VInt status; Py.VStr reason]
  = Ok (Py.lit "code:%d msg:%s").
Proof. apply format_without_braces. reflexivity. Qed.

(** ** One exchange *)

Section ExchangeFacts.
Context {Req Rsp : Type} `{!Serializable Req} `{!Parsable Rsp} `{!Gzip}.
Variable env : Env.

Lemma do_http_request_run (url : str) (headers : gmap str str) (body : bytes)
    (timeout : option timedelta) (w : World) :
  exists w',
    _do_http_request env url headers body timeout w
    = (classify env (requests_post env (posted url headers body timeout)), w')
    /\ wire w' = wire w ++ [posted url headers body timeout].
Proof.
  unfold _do_http_request, classify.
  unfold bind at 1. unfold time_time at 1. unfold bind at 1.
  unfold finally_, bind at 1.
  assert (Hpost : forall w0,
    match timeout with
    | Some t =>
        let timeout_secs := total_seconds t in
        post env {| post_url := url; post_headers := headers;
                    post_data := body; post_timeout := Some timeout_secs |}
    | None =>
        post env {| post_url := url; post_headers := headers;
                    post_data := body; post_timeout := None |}
    end w0
    = (Ok (requests_post env (posted url headers body timeout)),
       {| clock := clock w0; drawn := drawn w0; uuids := uuids w0;
          log := log w0; wire := wire w0 ++ [posted url headers body timeout] |})).
  { intros w0. destruct timeout; reflexivity. }
  rewrite Hpost. clear Hpost.
  destruct (requests_post env (posted url headers body timeout)) as [rsp|e].
  - unfold ret at 1, bind at 1, time_time, log_call at 1.
    cbn [clock drawn uuids log wire].
    unfold _SUCCESS_HTTP_CODE.
    destruct (status_code rsp =? 200)%Z; cbn [negb].
    + eexists. split; [reflexivity|]. reflexivity.
    + unfold bind at 1, _log_rsp.
      destruct (content rsp) as [b|]; [destruct (0 <? length b)|];
        unfold log_call at 1, bind at 1, lift; rewrite format_code_msg;
        eexists; (split; [reflexivity|]); reflexivity.
  - destruct (Py.contains (Py.lit "timeout") (Py.lower (unicode_lower env) e));
      unfold bind at 1, log_call at 1, raise at 1, bind at 1, time_time, log_call at 1;
      cbn [clock drawn uuids log wire];
      eexists; (split; [reflexivity|]); reflexivity.
Qed.

Variable self : HttpCaller.
Variable url : str.
Variable request : Req.
Variable response : Rsp.
Variable opts : list Option.
Variable w : World.

Lemma do_request_run :
  if credentials_encodable self then
    exists headers w',
      let r := posted url headers (gzip_compress (SerializeToString request))
                 (timeout (conv_to_options opts)) in
      _build_headers env self (conv_to_options opts)
        (gzip_compress (SerializeToString request)) w = (Ok headers, w')
      /\ wire (do_request env self url request response opts w).2 = wire w ++ [r]
      /\ (do_request env self url request response opts w).1
         = settle response (classify env (requests_post env r))
  else
    (do_request env self url request response opts w).1
    = (Raise UnicodeEncodeError, response)
    /\ wire (do_request env self url request response opts w).2 = wire w.
Proof.
  set (body := gzip_compress (SerializeToString request)).
  set (options := conv_to_options opts).
  destruct (credentials_encodable self) eqn:Hc.
  - destruct (build_headers_ok env self options body w Hc)
      as (rid & nonce & sig & w1 & Hrun & _ & _ & _ & _ & _ & _ & Hwire).
    set (headers := header_set rid (tenant_id (_context self))
                      (timestamp_at env w) nonce sig) in *.
    destruct (do_http_request_run url headers body (timeout options) w1)
      as (w2 & Hreq & Hwire2).
    exists headers, w1. cbv zeta. split; [exact Hrun|].
    assert (Hdo : exists w',
      do_request env self url request response opts w
      = (settle response
           (classify env (requests_post env (posted url headers body (timeout options)))),
         w')
      /\ wire w' = wire w2).
    { unfold do_request. cbv zeta. unfold bind at 1.
      fold body options. rewrite Hrun, Hreq.
      destruct (classify env _) as [[b|]|e]; cbn [settle]; [|by eauto..].
      destruct (ParseFromString response b); [by eauto|].
      unfold bind, log_call, raise. eexists. split; reflexivity. }
    destruct Hdo as (w' & -> & Hw'). cbn [fst snd].
    rewrite Hw', Hwire2, Hwire. auto.
  - destruct (build_headers_raises env self options body w Hc) as (w1 & Hrun & _ & Hwire).
    unfold do_request. cbv zeta. unfold bind.
    fold body options. rewrite Hrun. cbn [fst snd]. auto.
Qed.

(** A call that put request [r] on the wire. *)
Lemma do_request_posted (r : http_request) :
  wire (do_request env self url request response opts w).2 = wire w ++ [r] ->
  post_url r = url
  /\ post_data r = gzip_compress (SerializeToString request)
  /\ (do_request env self url request response opts w).1
     = settle response (classify env (requests_post env r)).
Proof.
  intros Hr. pose proof do_request_run as Hrun.
  destruct (credentials_encodable self).
  - destruct Hrun as (headers & w' & _ & Hwire & Hout). cbv zeta in *.
    rewrite Hr in Hwire. apply app_inv_head in Hwire. injection Hwire as ->.
    split; [reflexivity|]. split; [reflexivity|]. exact Hout.
  - destruct Hrun as [_ Hwire]. rewrite Hr in Hwire.
    apply (f_equal length) in Hwire. rewrite length_app in Hwire. cbn in Hwire. lia.
Qed.

End ExchangeFacts.

(** ** C2 to C6: the outcome of a call *)

Section Outcomes.
Context {Req Rsp : Type} `{!Serializable Req} `{!Parsable Rsp} `{!Gzip}.
Variable env : Env.
Variable self : HttpCaller.
Variable url : str.
Variable request : Req.
Variable response : Rsp.
Variable opts : list Option.
Variable w : World.

Local Abbreviation run := (do_request env self url request response opts w).

(** The message of the Network Error of a status other than 200 is the
    template itself: [str.format] finds no replacement field in it. *)
Lemma do_request_non200_message (r : http_request) (rsp : Response) :
  wire run.2 = wire w ++ [r] ->
  requests_post env r = Responds rsp ->
  status_code rsp <> 200%Z ->
  run.1 = (Raise (NetException (Py.lit "code:%d msg:%s")), response).
Proof.
  intros Hr Hrsp Hst.
  destruct (do_request_posted env self url request response opts w r Hr)
    as (_ & _ & ->).
  rewrite Hrsp. unfold classify.
  destruct (Z.eqb_spec (status_code rsp) 200); [contradiction|]. reflexivity.
Qed.

(** C3. When the POST of a call raises a transport failure with message
    [msg], the call raises the Network Error with [msg] if the lower-cased
    message contains [timeout], and the Business/Protocol Error with [msg]
    otherwise: an error is raised in either case, of exactly one of the two
    kinds, and the response container is as it was. *)
Theorem do_request_transport_failure (r : http_request) (msg : str) :
  wire run.2 = wire w ++ [r] ->
  requests_post env r = Fails msg ->
  run.1
  = (if Py.contains (Py.lit "timeout") (Py.lower (unicode_lower env) msg)
     then Raise (NetException msg) else Raise (BizException msg),
     response)
  /\ exists e, run.1.1 = Raise e /\ xorb (is_net e) (is_biz e) = true.
Proof.
  intros Hr Hfail.
  destruct (do_request_posted env self url request response opts w r Hr)
    as (_ & _ & ->).
  rewrite Hfail. unfold classify.
  destruct (Py.contains _ _); cbn [settle fst]; split; eauto.
Qed.

(** C4. When the POST of a call is answered with status 200 and a body, the
    call hands the body to [ParseFromString] on the response container: if
    parsing fails the call raises the Business/Protocol Error, and if it
    succeeds the call raises nothing and the container holds the parsed
    message. *)
Theorem do_request_status_200 (r : http_request) (rsp : Response) (b : bytes) :
  wire run.2 = wire w ++ [r] ->
  requests_post env r = Responds rsp ->
  status_code rsp = 200%Z ->
  content rsp = Some b ->
  (forall m err, ParseFromString response b = ParseFailed m err ->
     run.1.1 = Raise (BizException (Py.lit "parse response fail")))
  /\ (forall m, ParseFromString response b = Parsed m -> run.1 = (Ok tt, m)).
Proof.
  intros Hr Hrsp Hst Hb.
  destruct (do_request_posted env self url request response opts w r Hr)
    as (_ & _ & ->).
  rewrite Hrsp. unfold classify. rewrite Hst, Hb. cbn [Z.eqb Pos.eqb settle].
  split; intros; by destruct (ParseFromString response b); simplify_eq.
Qed.

(** C5. When the POST of a call is answered with a status other than 200, the
    call raises the Network Error and the response container is as it was
    before the call. *)
Theorem do_request_non200_unchanged (r : http_request) (rsp : Response) :
  wire run.2 = wire w ++ [r] ->
  requests_post env r = Responds rsp ->
  status_code rsp <> 200%Z ->
  (exists msg, run.1.1 = Raise (NetException msg)) /\ run.1.2 = response.
Proof.
  intros Hr Hrsp Hst.
  rewrite (do_request_non200_message r rsp Hr Hrsp Hst). cbn [fst snd]. eauto.
Qed.

(** C6. A call puts on the wire one request, whose body is the gzip
    compression of the serialized request message, whatever the message and
    its size; decompressing that body gives the serialized message back. The
    one case in which nothing is put on the wire is a context whose strings
    have no UTF-8 encoding, where signing raises before the POST. *)
Theorem do_request_body_is_gzip :
  (forall d, gzip_decompress (gzip_compress d) = Some d) ->
  if credentials_encodable self then
    exists r,
      wire run.2 = wire w ++ [r]
      /\ post_data r = gzip_compress (SerializeToString request)
      /\ gzip_decompress (post_data r) = Some (SerializeToString request)
  else wire run.2 = wire w.
Proof.
  intros Hlaw.
  pose proof (do_request_run env self url request response opts w) as Hrun.
  destruct (credentials_encodable self).
  - destruct Hrun as (headers & w' & _ & Hwire & _). cbv zeta in Hwire.
    eexists. split; [exact Hwire|]. cbn [post_data posted]. auto.
  - apply Hrun.
Qed.

End Outcomes.

(** C2. Against a transport that answers 500 Internal Server Error, the call
    raises the Network Error with the message [code:%d msg:%s]: the message
    holds neither the status code nor the reason phrase. *)
Theorem do_request_500_message :
  let answer := Mock.http 500 "Internal Server Error" (Some []) in
  exists msg,
    (Mock.call answer).1.1 = Raise (NetException msg)
    /\ msg = Py.lit "code:%d msg:%s"
    /\ Py.contains (Py.lit "500") msg = false
    /\ Py.contains (Py.lit "Internal Server Error") msg = false.
Proof.
  eexists. split; [vm_compute; reflexivity|]. repeat split.
Qed.

(** ** The statements above on the test doubles *)

Lemma do_request_transport_failure_witness :
  let answer := Fails (Py.lit "Read timed out. (read timeout=1)") in
  exists r,
    wire (Mock.call answer).2 = wire initial_world ++ [r]
    /\ requests_post (Mock.env answer) r = answer
    /\ (Mock.call answer).1
       = (Raise (NetException (Py.lit "Read timed out. (read timeout=1)")),
          Mock.empty_response).
Proof.
  cbv zeta. eexists. split; [vm_compute; reflexivity|]. split; [reflexivity|].
  refine (proj1 (@do_request_transport_failure
                   bytes bytes Mock.blob_serializable Mock.blob_parsable Mock.framing
                   (Mock.env _) Mock.caller Mock.url Mock.request Mock.empty_response
                   [] initial_world _ (Py.lit "Read timed out. (read timeout=1)") _ _)).
  - vm_compute. reflexivity.
  - reflexivity.
Defined.

Lemma do_request_status_200_witness :
  let answer := Mock.http 200 "OK" (Some ["001"%byte; "A"%byte]) in
  exists r,
    wire (Mock.call answer).2 = wire initial_world ++ [r]
    /\ requests_post (Mock.env answer) r = answer
    /\ Mock.blob_parse Mock.empty_response ["001"%byte; "A"%byte] = Parsed ["A"%byte]
    /\ (Mock.call answer).1 = (Ok tt, ["A"%byte]).
Proof.
  cbv zeta. eexists. split; [vm_compute; reflexivity|]. split; [reflexivity|].
  split; [reflexivity|].
  refine (proj2 (@do_request_status_200
                   bytes bytes Mock.blob_serializable Mock.blob_parsable Mock.framing
                   (Mock.env _) Mock.caller Mock.url Mock.request Mock.empty_response
                   [] initial_world _ _ ["001"%byte; "A"%byte] _ _ _ _) ["A"%byte] _).
  - vm_compute. reflexivity.
  - reflexivity.
  - reflexivity.
  - reflexivity.
  - reflexivity.
Defined.

Lemma do_request_non200_unchanged_witness :
  let answer := Mock.http 500 "Internal Server Error" (Some []) in
  exists r,
    wire (Mock.call answer).2 = wire initial_world ++ [r]
    /\ requests_post (Mock.env answer) r = answer
    /\ (exists msg, (Mock.call answer).1.1 = Raise (NetException msg))
    /\ (Mock.call answer).1.2 = Mock.empty_response.
Proof.
  cbv zeta. eexists. split; [vm_compute; reflexivity|]. split; [reflexivity|].
  refine (@do_request_non200_unchanged
            bytes bytes Mock.blob_serializable Mock.blob_parsable Mock.framing
            (Mock.env _) Mock.caller Mock.url Mock.request Mock.empty_response
            [] initial_world _ _ _ _ _).
  - vm_compute. reflexivity.
  - reflexivity.
  - cbn. discriminate.
Defined.

Lemma do_request_body_is_gzip_witness :
  let answer := Mock.http 200 "OK" (Some ["001"%byte; "A"%byte]) in
  (forall d, Mock.frame_decompress (Mock.frame_compress d) = Some d)
  /\ exists r,
       wire (Mock.call answer).2 = wire initial_world ++ [r]
       /\ post_data r = Mock.frame_compress (Mock.blob_serialize Mock.request)
       /\ Mock.frame_decompress (post_data r) = Some (Mock.blob_serialize Mock.request).
Proof.
  cbv zeta. split; [reflexivity|].
  exact (@do_request_body_is_gzip
           bytes bytes Mock.blob_serializable Mock.blob_parsable Mock.framing
           (Mock.env _) Mock.caller Mock.url Mock.request Mock.empty_response
           [] initial_world (fun d => eq_refl)).
Defined.

(* ===================================================================== *)
(** * Further properties of the request path *)
(* ===================================================================== *)

(** ** The log *)

Lemma count_level_app (lv : log_level) (l k : list log_record) :
  count_level lv (l ++ k) = count_level lv l + count_level lv k.
Proof. unfold count_level. by rewrite List.filter_app, length_app. Qed.

(** X3. [_log_rsp] never raises, whether the response has a body, an empty
    body or none: it appends one ERROR record to the log and leaves the rest
    of the state alone. The record names the url, the status and the reason,
    and carries the rendering of the body exactly when the body is there and
    is not empty. *)
Theorem log_rsp_one_error_record (url : str) (rsp : Response) (w : World) :
  exists rec,
    _log_rsp url rsp w
    = (Ok tt,
       {| clock := clock w; drawn := drawn w; uuids := uuids w;
          log := log w ++ [rec]; wire := wire w |})
    /\ level rec = ERROR
    /\ log_args rec
       = [Py.VStr url; Py.VInt (status_code rsp); Py.VStr (reason rsp)]
         ++ match content rsp with
            | Some (x :: b) => [Py.VStr (Py.bytes_repr (x :: b))]
            | _ => []
            end.
Proof.
  unfold _log_rsp. destruct (content rsp) as [[|x b]|]; cbn [length Nat.ltb Nat.leb];
    eexists; (split; [reflexivity|]); split; reflexivity.
Qed.

(** ** The state after an exchange *)

Section TraceFacts.
Context {Req Rsp : Type} `{!Serializable Req} `{!Parsable Rsp} `{!Gzip}.
Variable env : Env.

(** [_do_http_request], with the state it leaves: two readings of the clock,
    one request handed to the transport, one DEBUG record, and one ERROR
    record exactly when it raises. *)
Lemma do_http_request_trace (url : str) (headers : gmap str str) (body : bytes)
    (timeout : option timedelta) (w : World) :
  exists w' new,
    _do_http_request env url headers body timeout w
    = (classify env (requests_post env (posted url headers body timeout)), w')
    /\ clock w' = S (S (clock w)) /\ drawn w' = drawn w /\ uuids w' = uuids w
    /\ wire w' = wire w ++ [posted url headers body timeout]
    /\ log w' = log w ++ new
    /\ count_level DEBUG new = 1
    /\ count_level ERROR new
       = match classify env (requests_post env (posted url headers body timeout)) with
         | Raise _ => 1
         | Ok _ => 0
         end.
Proof.
  unfold _do_http_request, classify.
  unfold bind at 1. unfold time_time at 1. unfold bind at 1.
  unfold finally_, bind at 1.
  assert (Hpost : forall w0,
    match timeout with
    | Some t =>
        let timeout_secs := total_seconds t in
        post env {| post_url := url; post_headers := headers;
                    post_data := body; post_timeout := Some timeout_secs |}
    | None =>
        post env {| post_url := url; post_headers := headers;
                    post_data := body; post_timeout := None |}
    end w0
    = (Ok (requests_post env (posted url headers body timeout)),
       {| clock := clock w0; drawn := drawn w0; uuids := uuids w0;
          log := log w0; wire := wire w0 ++ [posted url headers body timeout] |})).
  { intros w0. destruct timeout; reflexivity. }
  rewrite Hpost. clear Hpost.
  destruct (requests_post env (posted url headers body timeout)) as [rsp|e].
  - unfold ret at 1, bind at 1, time_time, log_call at 1.
    cbn [clock drawn uuids log wire].
    unfold _SUCCESS_HTTP_CODE.
    destruct (status_code rsp =? 200)%Z; cbn [negb].
    + eexists _, _. split; [reflexivity|]. cbn [clock drawn uuids log wire].
      repeat split; reflexivity.
    + unfold bind at 1, _log_rsp.
      destruct (content rsp) as [[|x b]|]; cbn [length Nat.ltb Nat.leb];
        unfold log_call at 1, bind at 1, lift; rewrite format_code_msg;
        unfold raise; eexists _, _; (split; [reflexivity|]);
        cbn [clock drawn uuids log wire]; rewrite <- app_assoc;
        repeat split; reflexivity.
  - destruct (Py.contains (Py.lit "timeout") (Py.lower (unicode_lower env) e));
      unfold bind at 1, log_call at 1, raise at 1, bind at 1, time_time, log_call at 1;
      cbn [clock drawn uuids log wire];
      eexists _, _; (split; [reflexivity|]); cbn [clock drawn uuids log wire];
      rewrite <- app_assoc; repeat split; reflexivity.
Qed.

End TraceFacts.

Section CallFacts.
Context {Req Rsp : Type} `{!Serializable Req} `{!Parsable Rsp} `{!Gzip}.
Variable env : Env.
Variable self : HttpCaller.
Variable url : str.
Variable request : Req.
Variable response : Rsp.
Variable opts : list Option.
Variable w : World.

Local Abbreviation call := (do_request env self url request response opts w).
Local Abbreviation req_bytes := (gzip_compress (SerializeToString request)).
Local Abbreviation options := (conv_to_options opts).

(** A whole call, with the state it leaves. *)
Lemma do_request_trace :
  if credentials_encodable self then
    exists headers w1 new,
      _build_headers env self options req_bytes w = (Ok headers, w1)
      /\ call.1
         = settle response
             (classify env (requests_post env
                (posted url headers req_bytes (timeout options))))
      /\ wire call.2 = wire w ++ [posted url headers req_bytes (timeout options)]
      /\ log call.2 = log w ++ new
      /\ count_level DEBUG new = 1
      /\ count_level ERROR new
         = match call.1.1 with Raise _ => 1 | Ok _ => 0 end
  else
    call.1 = (Raise UnicodeEncodeError, response)
    /\ wire call.2 = wire w /\ log call.2 = log w.
Proof.
  destruct (credentials_encodable self) eqn:Hc.
  - destruct (build_headers_ok env self options req_bytes w Hc)
      as (rid & nonce & sig & w1 & Hrun & _ & _ & _ & _ & _ & Hlog & Hwire).
    set (headers := header_set rid (tenant_id (_context self))
                      (timestamp_at env w) nonce sig) in *.
    destruct (do_http_request_trace env url headers req_bytes (timeout options) w1)
      as (w2 & new & Hreq & _ & _ & _ & Hwire2 & Hlog2 & Hdebug & Herror).
    rewrite Hwire in Hwire2. rewrite Hlog in Hlog2.
    set (c := classify env (requests_post env
                 (posted url headers req_bytes (timeout options)))) in *.
    assert (Hdo : exists w' new',
      call = (settle response c, w')
      /\ wire w' = wire w2 /\ log w' = log w ++ new'
      /\ count_level DEBUG new' = 1
      /\ count_level ERROR new'
         = match (settle response c).1 with Raise _ => 1 | Ok _ => 0 end).
    { unfold do_request. cbv zeta. unfold bind at 1. rewrite Hrun, Hreq.
      destruct c as [[b|]|e]; cbn [settle].
      - destruct (ParseFromString response b) as [m|m err].
        + exists w2, new. cbn [fst snd]. auto.
        + unfold bind, log_call, raise. eexists _, _. split; [reflexivity|].
          cbn [fst snd log wire]. rewrite Hlog2, <- app_assoc.
          split; [reflexivity|]. split; [reflexivity|].
          rewrite !count_level_app, Hdebug, Herror. split; reflexivity.
      - exists w2, new. cbn [fst snd]. auto.
      - exists w2, new. cbn [fst snd]. auto. }
    destruct Hdo as (w' & new' & -> & Hw' & Hl' & Hd' & He').
    exists headers, w1, new'. cbn [fst snd]. rewrite Hw', Hwire2.
    repeat split; assumption || reflexivity.
  - destruct (build_headers_raises env self options req_bytes w Hc)
      as (w1 & Hrun & Hlog & Hwire).
    unfold do_request. cbv zeta. unfold bind. rewrite Hrun. cbn [fst snd]. auto.
Qed.

(** X1. A call whose context can be encoded hands exactly one request to the
    transport, whatever the outcome of the POST (no second attempt after a
    failure or a status other than 200): to the url of the call, with the
    header set that [_build_headers] built, with the compressed request as
    data, and with the timeout of the options in seconds, or without a
    timeout when the options have none. *)
Theorem do_request_posts_once :
  credentials_encodable self = true ->
  exists headers w1,
    _build_headers env self options req_bytes w = (Ok headers, w1)
    /\ wire call.2
       = wire w ++
         [{| post_url := url; post_headers := headers; post_data := req_bytes;
             post_timeout := match timeout options with
                             | Some t => Some (total_seconds t)
                             | None => None
                             end |}].
Proof.
  intros Hc. pose proof do_request_trace as Ht. rewrite Hc in Ht.
  destruct Ht as (headers & w1 & new & Hb & _ & Hwire & _).
  exists headers, w1. split; [exact Hb|]. rewrite Hwire.
  unfold posted. by destruct (timeout options).
Qed.

(** X2. When the POST is answered with status 200 and the response has no
    content at all, the call returns without an error and without handing
    anything to [ParseFromString]: the response container is as it was. *)
Theorem do_request_status_200_no_content (r : http_request) (rsp : Response) :
  wire call.2 = wire w ++ [r] ->
  requests_post env r = Responds rsp ->
  status_code rsp = 200%Z ->
  content rsp = None ->
  call.1 = (Ok tt, response).
Proof.
  intros Hr Hrsp Hst Hnone.
  destruct (do_request_posted env self url request response opts w r Hr)
    as (_ & _ & ->).
  rewrite Hrsp. unfold classify. rewrite Hst, Hnone. reflexivity.
Qed.

(** X4. What a call adds to the log: one DEBUG record, the duration of the
    POST, whenever a request was handed to the transport, whether the POST
    succeeded or not; and one ERROR record exactly when the call raises one
    of its two errors. A call that returns logs no ERROR record, and a call
    that fails before the POST logs nothing. *)
Theorem do_request_log_discipline :
  exists new,
    log call.2 = log w ++ new
    /\ count_level DEBUG new = (if credentials_encodable self then 1 else 0)
    /\ count_level ERROR new
       = match call.1.1 with
         | Raise (NetException _) | Raise (BizException _) => 1
         | _ => 0
         end.
Proof.
  pose proof do_request_trace as Ht.
  destruct (credentials_encodable self).
  - destruct Ht as (headers & w1 & new & _ & Hout & _ & Hlog & Hd & He).
    exists new. split; [exact Hlog|]. split; [exact Hd|]. rewrite He, Hout.
    unfold classify.
    destruct (requests_post env _) as [rsp|e].
    + destruct (status_code rsp =? 200)%Z; [|reflexivity].
      destruct (content rsp) as [b|]; cbn [settle]; [|reflexivity].
      by destruct (ParseFromString response b).
    + by destruct (Py.contains _ _).
  - destruct Ht as (Hout & _ & Hlog). exists []. rewrite app_nil_r, Hout.
    auto.
Qed.

(** X8. The errors a call can raise. With a context that can be encoded, an
    error is the Network Error or the Business/Protocol Error and nothing
    else: drawing the nonce and formatting the message never raise. With a
    context that cannot be encoded the call raises [UnicodeEncodeError]
    before the POST: no request is handed to the transport, nothing is
    logged, and the response container is as it was. *)
Theorem do_request_error_kinds :
  if credentials_encodable self then
    match call.1.1 with
    | Ok _ => True
    | Raise e => xorb (is_net e) (is_biz e) = true
    end
  else
    call.1 = (Raise UnicodeEncodeError, response)
    /\ wire call.2 = wire w /\ log call.2 = log w.
Proof.
  pose proof do_request_trace as Ht.
  destruct (credentials_encodable self); [|exact Ht].
  destruct Ht as (headers & w1 & new & _ & -> & _).
  unfold classify.
  destruct (requests_post env _) as [rsp|e].
  - destruct (status_code rsp =? 200)%Z; [|reflexivity].
    destruct (content rsp) as [b|]; cbn [settle]; [|exact I].
    by destruct (ParseFromString response b).
  - by destruct (Py.contains _ _).
Qed.

(** X9. A call returns without an error only if a request was handed to the
    transport and was answered with status 200. *)
Theorem do_request_ok_only_on_200 :
  call.1.1 = Ok tt ->
  exists r rsp,
    wire call.2 = wire w ++ [r]
    /\ requests_post env r = Responds rsp
    /\ status_code rsp = 200%Z.
Proof.
  intros Hok. pose proof do_request_trace as Ht.
  destruct (credentials_encodable self).
  - destruct Ht as (headers & w1 & new & _ & Hout & Hwire & _).
    rewrite Hout in Hok. unfold classify in Hok.
    destruct (requests_post env _) as [rsp|e] eqn:Hpost.
    + exists (posted url headers req_bytes (timeout options)), rsp.
      split; [exact Hwire|]. split; [exact Hpost|].
      destruct (Z.eqb_spec (status_code rsp) 200); [assumption|discriminate].
    + by destruct (Py.contains _ _).
  - destruct Ht as (Hout & _). rewrite Hout in Hok. discriminate.
Qed.

End CallFacts.

(** ** The header set and the signature, once more *)

Lemma header_set_names (rid tid ts nonce sig k : str) :
  is_Some (header_set rid tid ts nonce sig !! k) <-> k ∈ header_names.
Proof.
  unfold header_set, header_names. cbn [list_to_map foldr fst snd uncurry].
  rewrite !lookup_insert, lookup_empty, !elem_of_cons, elem_of_nil.
  repeat case_decide; subst; split; intros Hk;
    try (by eauto); try (by intuition eauto);
    try (destruct Hk; discriminate); try (exfalso; intuition congruence).
Qed.

(** X5. A header set that is built holds the nine headers of the table and no
    other: a name has an entry exactly when it is one of the nine. *)
Theorem build_headers_exactly_nine
    (env : Env) (self : HttpCaller) (options : _Options) (body : bytes) (w : World) :
  if credentials_encodable self then
    exists headers w',
      _build_headers env self options body w = (Ok headers, w')
      /\ forall k, is_Some (headers !! k) <-> k ∈ header_names
  else
    exists w', _build_headers env self options body w = (Raise UnicodeEncodeError, w').
Proof.
  destruct (credentials_encodable self) eqn:Hc.
  - destruct (build_headers_ok env self options body w Hc)
      as (rid & nonce & sig & w' & Hrun & _).
    eexists _, w'. split; [exact Hrun|]. apply header_set_names.
  - destruct (build_headers_raises env self options body w Hc) as (w' & Hrun & _).
    exists w'. exact Hrun.
Qed.

Lemma utf8_app (a b : str) :
  Py.utf8 (a ++ b)
  = match Py.utf8 a, Py.utf8 b with
    | Some x, Some y => Some (x ++ y)
    | _, _ => None
    end.
Proof.
  induction a as [|c a IH]; cbn [app Py.utf8].
  - by destruct (Py.utf8 b).
  - rewrite IH. destruct (Py.utf8_code_point c), (Py.utf8 a), (Py.utf8 b);
      try reflexivity. by rewrite app_assoc.
Qed.

(** The signature reads the tenant id, the timestamp and the nonce as one
    run of text. *)
Lemma signature_by_tail (token tenant : str) (body : bytes) (ts nonce : str) :
  signature_of_concatenation token tenant body ts nonce
  = match Py.utf8 token, Py.utf8 (tenant ++ ts ++ nonce) with
    | Some t, Some rest => Ok (Py.hexlify (SHA256.hash (t ++ body ++ rest)))
    | _, _ => Raise UnicodeEncodeError
    end.
Proof.
  unfold signature_of_concatenation. rewrite !utf8_app.
  destruct (Py.utf8 token), (Py.utf8 tenant), (Py.utf8 ts), (Py.utf8 nonce);
    reflexivity.
Qed.

(** X6. The signature does not see where one field ends and the next
    begins: two callers with the same token get the same signature for the
    same body whenever tenant id, timestamp and nonce, written one after the
    other, give the same text. *)
Theorem cal_signature_ignores_field_boundaries
    (self1 self2 : HttpCaller) (body : bytes) (ts1 nonce1 ts2 nonce2 : str) :
  token (_context self1) = token (_context self2) ->
  tenant_id (_context self1) ++ ts1 ++ nonce1
  = tenant_id (_context self2) ++ ts2 ++ nonce2 ->
  _cal_signature self1 body ts1 nonce1 = _cal_signature self2 body ts2 nonce2.
Proof.
  intros Htok Htail. rewrite !cal_signature_concat, !signature_by_tail.
  rewrite Htok, Htail. reflexivity.
Qed.

Lemma cal_signature_ignores_field_boundaries_witness :
  let self1 := {| _context := {| tenant_id := Py.lit "acme"; token := Py.lit "k" |} |} in
  let self2 := {| _context := {| tenant_id := Py.lit "acme1"; token := Py.lit "k" |} |} in
  tenant_id (_context self1) <> tenant_id (_context self2)
  /\ Py.lit "1700000000" <> Py.lit "700000000"
  /\ _cal_signature self1 [] (Py.lit "1700000000") (Py.lit "dkryFMT0")
     = _cal_signature self2 [] (Py.lit "700000000") (Py.lit "dkryFMT0").
Proof.
  cbv zeta. split; [discriminate|]. split; [discriminate|].
  apply cal_signature_ignores_field_boundaries; reflexivity.
Defined.

Section WireFacts.
Context {Req Rsp : Type} `{!Serializable Req} `{!Parsable Rsp} `{!Gzip}.
Variable env : Env.
Variable self : HttpCaller.
Variable url : str.
Variable request : Req.
Variable response : Rsp.
Variable opts : list Option.
Variable w : World.

Local Abbreviation call := (do_request env self url request response opts w).

(** X7. The request a call hands to the transport can be verified by the
    receiver: its Tenant-Signature is the signature, under the token, of the
    very data of the request together with the Tenant-Id, Tenant-Ts and
    Tenant-Nonce of the same request. *)
Theorem do_request_posts_verifiable_request :
  if credentials_encodable self then
    exists r ts nonce signature,
      wire call.2 = wire w ++ [r]
      /\ post_headers r !! Py.lit "Tenant-Id" = Some (tenant_id (_context self))
      /\ post_headers r !! Py.lit "Tenant-Ts" = Some ts
      /\ post_headers r !! Py.lit "Tenant-Nonce" = Some nonce
      /\ post_headers r !! Py.lit "Tenant-Signature" = Some signature
      /\ signature_of_concatenation (token (_context self))
           (tenant_id (_context self)) (post_data r) ts nonce
         = Ok signature
  else wire call.2 = wire w.
Proof.
  pose proof (do_request_trace env self url request response opts w) as Ht.
  destruct (credentials_encodable self) eqn:Hc; [|apply Ht].
  destruct Ht as (headers & w1 & new & Hb & _ & Hwire & _).
  destruct (build_headers_ok env self (conv_to_options opts)
              (gzip_compress (SerializeToString request)) w Hc)
    as (rid & nonce & sig & w1' & Hb' & _ & _ & Hsig & _).
  rewrite Hb' in Hb. injection Hb as <- <-.
  eexists _, (timestamp_at env w), nonce, sig. split; [exact Hwire|].
  cbn [post_headers post_data posted].
  pose proof (header_set_lookup rid (tenant_id (_context self))
                (timestamp_at env w) nonce sig) as Hl.
  cbv zeta in Hl. rewrite <- cal_signature_concat. tauto.
Qed.

End WireFacts.

(** ** The further statements on the test doubles *)

Lemma do_request_posts_once_witness :
  let t := {| days := 0; seconds := 3; microseconds := 500000 |} in
  let answer := Fails (Py.lit "Connection refused") in
  let run :=
    @do_request bytes bytes Mock.blob_serializable Mock.blob_parsable Mock.framing
      (Mock.env answer) Mock.caller Mock.url Mock.request Mock.empty_response
      [with_timeout t] initial_world in
  credentials_encodable Mock.caller = true
  /\ exists headers w1,
       _build_headers (Mock.env answer) Mock.caller (conv_to_options [with_timeout t])
         (Mock.frame_compress (Mock.blob_serialize Mock.request)) initial_world
       = (Ok headers, w1)
       /\ wire run.2
          = [{| post_url := Mock.url; post_headers := headers;
                post_data := Mock.frame_compress (Mock.blob_serialize Mock.request);
                post_timeout := Some (Qmake 3500000 1000000) |}].
Proof.
  cbv zeta. split; [reflexivity|].
  exact (@do_request_posts_once
           bytes bytes Mock.blob_serializable Mock.blob_parsable Mock.framing
           (Mock.env _) Mock.caller Mock.url Mock.request Mock.empty_response
           [with_timeout {| days := 0; seconds := 3; microseconds := 500000 |}]
           initial_world eq_refl).
Defined.

Lemma do_request_status_200_no_content_witness :
  let answer := Mock.http 200 "OK" None in
  exists r,
    wire (Mock.call answer).2 = wire initial_world ++ [r]
    /\ requests_post (Mock.env answer) r = answer
    /\ (Mock.call answer).1 = (Ok tt, Mock.empty_response).
Proof.
  cbv zeta. eexists. split; [vm_compute; reflexivity|]. split; [reflexivity|].
  refine (@do_request_status_200_no_content
            bytes bytes Mock.blob_serializable Mock.blob_parsable Mock.framing
            (Mock.env _) Mock.caller Mock.url Mock.request Mock.empty_response
            [] initial_world _ _ _ _ _ _).
  - vm_compute. reflexivity.
  - reflexivity.
  - reflexivity.
  - reflexivity.
Defined.

Lemma do_request_ok_only_on_200_witness :
  let answer := Mock.http 200 "OK" (Some ["001"%byte; "A"%byte]) in
  (Mock.call answer).1.1 = Ok tt
  /\ exists r rsp,
       wire (Mock.call answer).2 = wire initial_world ++ [r]
       /\ requests_post (Mock.env answer) r = Responds rsp
       /\ status_code rsp = 200%Z.
Proof.
  cbv zeta. split; [vm_compute; reflexivity|].
  refine (@do_request_ok_only_on_200
            bytes bytes Mock.blob_serializable Mock.blob_parsable Mock.framing
            (Mock.env _) Mock.caller Mock.url Mock.request Mock.empty_response
            [] initial_world _).
  vm_compute. reflexivity.
Defined.

(** ** Reading a Request-Id back *)

Lemma to_N_byte_of_N (x : N) : Byte.to_N (Py.byte_of_N x) = (x mod 256)%N.
Proof.
  unfold Py.byte_of_N. destruct (Byte.of_N (x mod 256)) as [b|] eqn:E; cbn.
  - by apply Byte.to_of_N.
  - apply Byte.of_N_None_iff in E.
    pose proof (N.mod_upper_bound x 256 ltac:(lia)). lia.
Qed.

Lemma be_to_N_snoc (l : bytes) (b : byte) :
  be_to_N (l ++ [b]) = (be_to_N l * 256 + Byte.to_N b)%N.
Proof. unfold be_to_N. by rewrite fold_left_app. Qed.

Lemma be_to_N_N_to_be (n : nat) (x : N) :
  be_to_N (Uuid.N_to_be n x) = (x mod 2 ^ (8 * N.of_nat n))%N.
Proof.
  revert x. induction n as [|n IH]; intros x.
  - cbn. by rewrite N.mod_1_r.
  - cbn [Uuid.N_to_be]. rewrite be_to_N_snoc, IH, to_N_byte_of_N.
    rewrite N.shiftr_div_pow2.
    replace (8 * N.of_nat (S n))%N with (8 + 8 * N.of_nat n)%N by lia.
    rewrite N.pow_add_r. change (2 ^ 8)%N with 256%N.
    rewrite N.Div0.mod_mul_r. lia.
Qed.

Lemma unhexlify_hexlify (b : bytes) : unhexlify (Py.hexlify b) = b.
Proof.
  unfold Py.hexlify. induction b as [|x b IH]; [reflexivity|].
  cbn [map concat]. unfold Py.hex_byte at 1. cbn [app unhexlify].
  rewrite IH. f_equal. destruct x; reflexivity.
Qed.

Lemma ungroup_group (h : str) :
  length h = 32 ->
  ungroup (take 8 h ++ [45%N] ++ take 4 (drop 8 h) ++ [45%N] ++ take 4 (drop 12 h)
             ++ [45%N] ++ take 4 (drop 16 h) ++ [45%N] ++ drop 20 h) = h.
Proof.
  intros Hlen.
  do 32 (destruct h as [|? h]; [discriminate|]).
  destruct h; [reflexivity|discriminate].
Qed.

(** The text of a UUID determines its 128 bits. *)
Lemma uuid_of_str_of_uuid (x : N) :
  uuid_of_str (Uuid.str_of_uuid x) = (x mod 2 ^ 128)%N.
Proof.
  unfold uuid_of_str, Uuid.str_of_uuid. cbv zeta.
  rewrite ungroup_group by (by rewrite hexlify_length, N_to_be_length).
  rewrite unhexlify_hexlify, be_to_N_N_to_be. reflexivity.
Qed.

(** X12. Two calls in a row that bring no request id of their own get
    different Request-Id headers, provided the UUID source gives two
    different UUIDs: the second call takes the next UUID, and the text of a
    UUID determines its 128 bits. *)
Theorem build_headers_request_ids_differ
    (env : Env) (self : HttpCaller) (options1 options2 : _Options)
    (body1 body2 : bytes) (w : World) :
  credentials_encodable self = true ->
  request_id options1 = None \/ request_id options1 = Some [] ->
  request_id options2 = None \/ request_id options2 = Some [] ->
  (uuid_at env (uuids w) mod 2 ^ 128 <> uuid_at env (S (uuids w)) mod 2 ^ 128)%N ->
  exists headers1 w1 headers2 w2 id1 id2,
    _build_headers env self options1 body1 w = (Ok headers1, w1)
    /\ _build_headers env self options2 body2 w1 = (Ok headers2, w2)
    /\ headers1 !! Py.lit "Request-Id" = Some id1
    /\ headers2 !! Py.lit "Request-Id" = Some id2
    /\ id1 <> id2.
Proof.
  intros Hc H1 H2 Hne.
  destruct (build_headers_ok env self options1 body1 w Hc)
    as (rid1 & n1 & s1 & w1 & Hrun1 & Hrid1 & _).
  destruct (build_headers_ok env self options2 body2 w1 Hc)
    as (rid2 & n2 & s2 & w2 & Hrun2 & Hrid2 & _).
  assert (Hid1 : rid1 = Uuid.str_of_uuid (uuid_at env (uuids w))
                 /\ uuids w1 = S (uuids w)).
  { destruct H1 as [E|E]; rewrite E in Hrid1; cbn [length Nat.ltb Nat.leb] in Hrid1;
      by injection Hrid1. }
  destruct Hid1 as [-> Hu].
  assert (Hid2 : rid2 = Uuid.str_of_uuid (uuid_at env (S (uuids w)))).
  { rewrite <- Hu.
    destruct H2 as [E|E]; rewrite E in Hrid2; cbn [length Nat.ltb Nat.leb] in Hrid2;
      by injection Hrid2. }
  subst rid2.
  eexists _, w1, _, w2, _, _. split; [exact Hrun1|]. split; [exact Hrun2|].
  split; [apply header_set_lookup|]. split; [apply header_set_lookup|].
  intros Heq. apply Hne. rewrite <- !uuid_of_str_of_uuid. by rewrite Heq.
Qed.

Lemma build_headers_request_ids_differ_witness :
  let env := Mock.env (Fails []) in
  let options := conv_to_options [] in
  credentials_encodable Mock.caller = true
  /\ request_id options = None
  /\ (uuid_at env 0 mod 2 ^ 128 <> uuid_at env 1 mod 2 ^ 128)%N
  /\ exists headers1 w1 headers2 w2 id1 id2,
       _build_headers env Mock.caller options [] initial_world = (Ok headers1, w1)
       /\ _build_headers env Mock.caller options [] w1 = (Ok headers2, w2)
       /\ headers1 !! Py.lit "Request-Id" = Some id1
       /\ headers2 !! Py.lit "Request-Id" = Some id2
       /\ id1 <> id2.
Proof.
  cbv zeta. split; [reflexivity|]. split; [reflexivity|].
  split; [vm_compute; discriminate|].
  apply (build_headers_request_ids_differ (Mock.env (Fails [])) Mock.caller
           (conv_to_options []) (conv_to_options []) [] [] initial_world).
  - reflexivity.
  - left. reflexivity.
  - left. reflexivity.
  - vm_compute. discriminate.
Defined.

(** ** What [_with_auth_headers] does to a dictionary *)



(** ** The word [timeout] in any letter case *)

Lemma lower_from_ascii (tbl : str -> N -> str -> str) (word before rest : str) :
  forallb Py.is_ascii word = true ->
  Py.lower_from tbl before (word ++ rest)
  = map ascii_lower word ++ Py.lower_from tbl (before ++ word) rest.
Proof.
  revert before. induction word as [|c word IH]; intros before Hw.
  - cbn. by rewrite app_nil_r.
  - cbn [forallb] in Hw. apply andb_true_iff in Hw as [Hc Hw].
    cbn [app Py.lower_from map]. rewrite IH by exact Hw.
    rewrite <- app_assoc. cbn [app]. f_equal.
    unfold Py.lower_code_point, ascii_lower. unfold Py.is_ascii in Hc.
    destruct ((65 <=? c) && (c <=? 90))%N; [reflexivity|].
    by rewrite Hc.
Qed.

Lemma ascii_lower_word (word sub : str) :
  map ascii_lower word = sub ->
  forallb Py.is_ascii sub = true -> forallb Py.is_ascii word = true.
Proof.
  intros <-. induction word as [|c word IH]; [reflexivity|].
  cbn [map forallb]. rewrite !andb_true_iff. intros [Hc Hw].
  split; [|by apply IH]. unfold ascii_lower, Py.is_ascii in *.
  destruct (N.leb_spec 65 c), (N.leb_spec c 90); cbn in Hc;
    destruct (N.ltb_spec c 128); try reflexivity; lia.
Qed.

Lemma contains_lower_word (tbl : str -> N -> str -> str)
    (sub pre word post before : str) :
  map ascii_lower word = sub ->
  forallb Py.is_ascii sub = true ->
  Py.contains sub (Py.lower_from tbl before (pre ++ word ++ post)) = true.
Proof.
  intros Hsub Hascii. revert before. induction pre as [|c pre IH]; intros before.
  - cbn [app]. rewrite lower_from_ascii by (by eapply ascii_lower_word).
    rewrite Hsub. apply contains_infix. by exists [], (Py.lower_from tbl (before ++ word) post).
  - cbn [app Py.lower_from]. specialize (IH (before ++ [c])).
    apply contains_infix in IH as (p & q & ->). apply contains_infix.
    exists (Py.lower_code_point tbl before c (pre ++ word ++ post) ++ p), q.
    by rewrite <- app_assoc.
Qed.

Section TimeoutFacts.
Context {Req Rsp : Type} `{!Serializable Req} `{!Parsable Rsp} `{!Gzip}.
Variable env : Env.
Variable self : HttpCaller.
Variable url : str.
Variable request : Req.
Variable response : Rsp.
Variable opts : list Option.
Variable w : World.

Local Abbreviation call := (do_request env self url request response opts w).

(** X10. A transport failure whose message holds the word [timeout] in any
    mix of upper and lower case letters, anywhere in the message and whatever
    the rest of the message is, makes the call raise the Network Error with
    that message. *)
Theorem do_request_timeout_any_case (r : http_request) (pre word post : str) :
  wire call.2 = wire w ++ [r] ->
  requests_post env r = Fails (pre ++ word ++ post) ->
  map ascii_lower word = Py.lit "timeout" ->
  call.1 = (Raise (NetException (pre ++ word ++ post)), response).
Proof.
  intros Hr Hfail Hword.
  destruct (do_request_posted env self url request response opts w r Hr)
    as (_ & _ & ->).
  rewrite Hfail. unfold classify, Py.lower.
  rewrite (contains_lower_word _ _ pre word post [] Hword eq_refl). reflexivity.
Qed.

End TimeoutFacts.

Lemma do_request_timeout_any_case_witness :
  let msg := Py.lit "HTTPSConnectionPool: Read timed out. (read TimeOut=1)" in
  exists r pre word post,
    wire (Mock.call (Fails msg)).2 = wire initial_world ++ [r]
    /\ requests_post (Mock.env (Fails msg)) r = Fails (pre ++ word ++ post)
    /\ word = Py.lit "TimeOut"
    /\ (Mock.call (Fails msg)).1 = (Raise (NetException msg), Mock.empty_response).
Proof.
  cbv zeta.
  exists (posted Mock.url
            (match (_build_headers
                      (Mock.env (Fails (Py.lit "HTTPSConnectionPool: Read timed out. (read TimeOut=1)")))
                      Mock.caller (conv_to_options [])
                      (Mock.frame_compress (Mock.blob_serialize Mock.request))
                      initial_world).1 with
             | Ok h => h
             | Raise _ => ∅
             end)
            (Mock.frame_compress (Mock.blob_serialize Mock.request)) None),
    (Py.lit "HTTPSConnectionPool: Read timed out. (read "), (Py.lit "TimeOut"),
    (Py.lit "=1)").
  split; [vm_compute; reflexivity|]. split; [reflexivity|]. split; [reflexivity|].
  refine (@do_request_timeout_any_case
            bytes bytes Mock.blob_serializable Mock.blob_parsable Mock.framing
            (Mock.env _) Mock.caller Mock.url Mock.request Mock.empty_response
            [] initial_world _
            (Py.lit "HTTPSConnectionPool: Read timed out. (read ")
            (Py.lit "TimeOut") (Py.lit "=1)") _ _ _).
  - vm_compute. reflexivity.
  - reflexivity.
  - reflexivity.
Defined.
